(** * A shallow embedding of [src/value_screener.py]

    The value screener fetches one annual period of fundamentals per
    ticker, applies seven threshold rules, sums their points into a
    score and returns the results ranked by score.

    Python's [float] is an IEEE 754 binary64 number: it is modelled by
    Rocq's primitive [float], whose operations are the same ones.
    Exceptions are modelled by the [exc] monad below. *)

From Stdlib Require Import ZArith List Bool String Ascii Lia.
From Stdlib Require Import Sorted Permutation DecimalString.
From Stdlib Require Import Floats.
Import ListNotations.

Set Warnings "-inexact-float".

Local Open Scope string_scope.
Local Open Scope Z_scope.

(** ** Exceptions *)

Inductive exn : Type :=
| ValueError (msg : string)
| ZeroDivisionError (msg : string)
| ApiError (msg : string).

Inductive exc (A : Type) : Type :=
| Return (a : A)
| Raise (e : exn).

Arguments Return {A} a.
Arguments Raise {A} e.

Definition bind {A B : Type} (c : exc A) (k : A -> exc B) : exc B :=
  match c with
  | Return a => k a
  | Raise e => Raise e
  end.

Notation "x <- c ;; k" := (bind c (fun x => k))
  (at level 61, c at next level, right associativity).

(** ** Python's float operations *)

Module Py.

(** [bool(x)] for a float: [x != 0.0]; both zeros are falsy, [nan] and
    the infinities are truthy. *)
Definition truthy (x : float) : bool := negb (x =? 0)%float.

(** [bool(v)] for an optional float: [None] is falsy. *)
Definition truthy_opt (v : option float) : bool :=
  match v with
  | Some x => truthy x
  | None => false
  end.

(** [x > y] *)
Definition gt (x y : float) : bool := (y <? x)%float.

(** [math.sqrt(x)]: CPython computes the C square root and raises
    [ValueError] when the result is [nan] for an argument that is not:
    the domain error of an argument below zero ([math_sqrt_domain]). *)
Definition math_sqrt (x : float) : exc float :=
  let r := PrimFloat.sqrt x in
  if is_nan r && negb (is_nan x)
  then Raise (ValueError "math domain error")
  else Return r.

(** [x / y] on floats raises [ZeroDivisionError] for a zero divisor. *)
Definition truediv (x y : float) : exc float :=
  if (y =? 0)%float
  then Raise (ZeroDivisionError "float division by zero")
  else Return (x / y)%float.

End Py.

(** ** Python's fixed-point formatting *)

Module Fmt.

Definition digit (d : Z) : ascii :=
  ascii_of_nat (48 + Z.to_nat d).

(** The [k] low decimal digits of [n], most significant first. *)
Fixpoint low_digits (k : nat) (n : Z) : string :=
  match k with
  | O => EmptyString
  | S k' => low_digits k' (n / 10) ++ String (digit (n mod 10)) EmptyString
  end.

(** A natural number in decimal, ["0"] for zero. *)
Definition decimal (n : Z) : string :=
  NilZero.string_of_uint (N.to_uint (Z.to_N n)).

(** The fractional part with its point; nothing when [prec] is zero. *)
Definition point (prec : nat) (frac : string) : string :=
  match prec with
  | O => EmptyString
  | S _ => String "."%char frac
  end.

(** [n / 10^prec] with [prec] digits after the point. *)
Definition fixed (prec : nat) (n : Z) : string :=
  let p := 10 ^ Z.of_nat prec in
  decimal (n / p) ++ point prec (low_digits prec (n mod p)).

(** [m * 2^e] rounded to the nearest integer, ties to even. *)
Definition round_half_even (m e : Z) : Z :=
  if 0 <=? e then m * 2 ^ e
  else
    let d := 2 ^ (- e) in
    let q := m / d in
    let r := m mod d in
    match 2 * r ?= d with
    | Lt => q
    | Gt => q + 1
    | Eq => if Z.even q then q else q + 1
    end.

Definition sign (s : bool) : string := if s then "-" else "".

(** [format(x, ".<prec>f")]: the exact binary value correctly rounded
    to [prec] decimals, the sign bit always shown. *)
Definition format_f (prec : nat) (x : float) : string :=
  match Prim2SF x with
  | S754_nan => "nan"
  | S754_infinity s => sign s ++ "inf"
  | S754_zero s => sign s ++ fixed prec 0
  | S754_finite s m e =>
      sign s ++ fixed prec (round_half_even (Zpos m * 10 ^ Z.of_nat prec) e)
  end.

(** [format(x, ".<prec>%")]: the value times 100 (a float product) in
    ['f'] format, followed by a percent sign. *)
Definition format_pct (prec : nat) (x : float) : string :=
  format_f prec (x * 100)%float ++ "%".

(** What a number with [prec] decimals looks like: an optional minus
    sign, at least one digit, and for a positive [prec] a point and
    [prec] digits; or one of the three non-finite spellings. *)
Definition is_digit (c : ascii) : bool :=
  ((48 <=? nat_of_ascii c) && (nat_of_ascii c <=? 57))%nat.

Fixpoint all_digits (s : string) : bool :=
  match s with
  | EmptyString => true
  | String c s' => is_digit c && all_digits s'
  end.

Inductive decimals (prec : nat) : string -> Prop :=
| decimals_finite (s : bool) (whole frac : string) :
    whole <> EmptyString ->
    all_digits whole = true ->
    all_digits frac = true ->
    String.length frac = prec ->
    decimals prec (sign s ++ whole ++ point prec frac)
| decimals_inf (s : bool) : decimals prec (sign s ++ "inf")
| decimals_nan : decimals prec "nan".

Definition percentage (prec : nat) (s : string) : Prop :=
  exists n, s = n ++ "%" /\ decimals prec n.

End Fmt.

(** ** Data model *)

(** The fields of the API's [FinancialMetrics] that the screener reads;
    each is [float | None]. *)
Record FinancialMetrics : Type := {
  price_to_earnings_ratio : option float;
  price_to_book_ratio : option float;
  debt_to_assets : option float;
  current_ratio : option float;
  revenue_growth : option float;
  earnings_growth : option float
}.

(** The three line items the screener asks for; [getattr(.., None)]
    reads a missing attribute as [None]. *)
Record LineItem : Type := {
  earnings_per_share : option float;
  book_value_per_share : option float;
  outstanding_shares : option float
}.

(** The dict returned by [score_stock]. *)
Record ScoreResult : Type := {
  ticker : string;
  score : Z;
  margin_of_safety : option float;
  reasons : list string
}.

(** The collaborators imported from [src.tools.api], which are not part
    of the screener: they are parameters of the model, and may raise. *)
Record Api : Type := {
  get_financial_metrics :
    string -> string -> string -> Z -> exc (list FinancialMetrics);
  search_line_items :
    string -> list string -> string -> string -> Z -> exc (list LineItem);
  get_market_cap : string -> string -> exc (option float)
}.

Definition DEFAULT_LINE_ITEMS : list string :=
  ["earnings_per_share"; "book_value_per_share"; "outstanding_shares"].

(** ** The margin of safety *)

Definition compute_margin_of_safety
    (line_item : LineItem) (market_cap : option float) : exc (option float) :=
  let eps := earnings_per_share line_item in
  let bvps := book_value_per_share line_item in
  let shares := outstanding_shares line_item in
  match eps, bvps, shares, market_cap with
  | Some eps, Some bvps, Some shares, Some market_cap =>
      if Py.truthy eps && Py.truthy bvps && Py.truthy shares
         && Py.truthy market_cap && Py.gt market_cap 0
      then
        graham_number <- Py.math_sqrt (22.5 * eps * bvps)%float ;;
        price <- Py.truediv market_cap shares ;;
        if Py.gt price 0
        then
          mos <- Py.truediv (graham_number - price)%float price ;;
          Return (Some mos)
        else Return None
      else Return None
  | _, _, _, _ => Return None
  end.

(** The condition of the [if] on line 22, for values that are present:
    each nonzero, and a positive market capitalisation. *)
Definition guard (eps bvps shares market_cap : float) : bool :=
  Py.truthy eps && Py.truthy bvps && Py.truthy shares
  && Py.truthy market_cap && Py.gt market_cap 0.

(** The value returned on line 26, with the operations of lines 23-26. *)
Definition graham_margin (eps bvps shares market_cap : float) : float :=
  ((PrimFloat.sqrt (22.5 * eps * bvps) - market_cap / shares)
   / (market_cap / shares))%float.

(** ** Scoring one ticker *)

(** The running [score] and [reasons] of [score_stock]. *)
Definition tally : Type := (Z * list string)%type.

(** [score += points; reasons.append(reason)] *)
Definition award (points : Z) (reason : string) (t : tally) : tally :=
  (fst t + points, (snd t ++ [reason])%list).

Definition score_stock (api : Api) (ticker end_date : string)
  : exc (option ScoreResult) :=
  metrics <- get_financial_metrics api ticker end_date "annual" 1 ;;
  line_items <-
    search_line_items api ticker DEFAULT_LINE_ITEMS end_date "annual" 1 ;;
  market_cap <- get_market_cap api ticker end_date ;;
  match metrics, line_items, market_cap with
  | fm :: _, li :: _, Some _ =>
      let t : tally := (0, []) in
      let t :=
        match price_to_earnings_ratio fm with
        | Some v =>
            if Py.truthy v && (v <? 15)%float
            then award 1 ("P/E " ++ Fmt.format_f 1 v ++ " < 15") t else t
        | None => t
        end in
      let t :=
        match price_to_book_ratio fm with
        | Some v =>
            if Py.truthy v && (v <? 1.5)%float
            then award 1 ("P/B " ++ Fmt.format_f 1 v ++ " < 1.5") t else t
        | None => t
        end in
      let t :=
        match debt_to_assets fm with
        | Some v =>
            if Py.truthy v && (v <? 0.5)%float
            then award 1 ("Debt/Assets " ++ Fmt.format_f 2 v ++ " < 0.5") t
            else t
        | None => t
        end in
      let t :=
        match current_ratio fm with
        | Some v =>
            if Py.truthy v && Py.gt v 1.5
            then award 1 ("Current ratio " ++ Fmt.format_f 2 v ++ " > 1.5") t
            else t
        | None => t
        end in
      mos <- compute_margin_of_safety li market_cap ;;
      let t :=
        match mos with
        | Some v =>
            if Py.gt v 0.3
            then award 2 ("Margin of safety " ++ Fmt.format_pct 0 v) t else t
        | None => t
        end in
      let t :=
        match revenue_growth fm with
        | Some v =>
            if Py.truthy v && Py.gt v 0.05
            then award 1 ("Revenue growth " ++ Fmt.format_pct 0 v) t else t
        | None => t
        end in
      let t :=
        match earnings_growth fm with
        | Some v =>
            if Py.truthy v && Py.gt v 0.05
            then award 1 ("Earnings growth " ++ Fmt.format_pct 0 v) t else t
        | None => t
        end in
      Return (Some {| ticker := ticker;
                      score := fst t;
                      margin_of_safety := mos;
                      reasons := snd t |})
  | _, _, _ => Return None
  end.

(** ** Screening a list of tickers *)

(** [list.sort(key=key, reverse=True)]: Python's sort is stable, also
    under [reverse=True], so equal keys keep their order.  A stable sort
    has one possible output, which this insertion sort computes. *)
Section SortReverse.
Context {A : Type} (key : A -> Z).

Fixpoint insert_desc (x : A) (l : list A) : list A :=
  match l with
  | [] => [x]
  | y :: l' =>
      if key y <? key x then x :: y :: l' else y :: insert_desc x l'
  end.

Definition sort_reverse (l : list A) : list A :=
  fold_left (fun acc x => insert_desc x acc) l [].
End SortReverse.

(** The [for] loop of [screen_stocks]; a result dict is never empty, so
    it is truthy exactly when it is not [None]. *)
Fixpoint collect (api : Api) (end_date : string)
    (tickers : list string) (results : list ScoreResult)
  : exc (list ScoreResult) :=
  match tickers with
  | [] => Return results
  | ticker :: rest =>
      result <- score_stock api ticker end_date ;;
      collect api end_date rest
        match result with
        | Some r => (results ++ [r])%list
        | None => results
        end
  end.

Definition screen_stocks (api : Api) (tickers : list string)
    (end_date : string) : exc (list ScoreResult) :=
  results <- collect api end_date tickers [] ;;
  Return (sort_reverse score results).

(** ** The rule table, as the specification words it

    Section 4.2 of the specification lists seven rules in a fixed order,
    each with the value it reads, its threshold, its points and the text
    of its reason.  [Rules.evaluate] is that table; the theorems below
    compare [score_stock], which is written rule by rule, with it. *)

Module Rules.

Inductive rule : Type :=
| PE | PB | DebtAssets | CurrentRatio
| MarginOfSafety | RevenueGrowth | EarningsGrowth.

Definition order : list rule :=
  [PE; PB; DebtAssets; CurrentRatio;
   MarginOfSafety; RevenueGrowth; EarningsGrowth].

Definition rule_eqb (a b : rule) : bool :=
  match a, b with
  | PE, PE | PB, PB | DebtAssets, DebtAssets
  | CurrentRatio, CurrentRatio | MarginOfSafety, MarginOfSafety
  | RevenueGrowth, RevenueGrowth | EarningsGrowth, EarningsGrowth => true
  | _, _ => false
  end.

(** The value a rule reads. *)
Definition input (r : rule) (fm : FinancialMetrics) (mos : option float)
  : option float :=
  match r with
  | PE => price_to_earnings_ratio fm
  | PB => price_to_book_ratio fm
  | DebtAssets => debt_to_assets fm
  | CurrentRatio => current_ratio fm
  | MarginOfSafety => mos
  | RevenueGrowth => revenue_growth fm
  | EarningsGrowth => earnings_growth fm
  end.

Definition threshold (r : rule) (v : float) : bool :=
  match r with
  | PE => (v <? 15)%float
  | PB => (v <? 1.5)%float
  | DebtAssets => (v <? 0.5)%float
  | CurrentRatio => Py.gt v 1.5
  | MarginOfSafety => Py.gt v 0.3
  | RevenueGrowth => Py.gt v 0.05
  | EarningsGrowth => Py.gt v 0.05
  end.

Definition points (r : rule) : Z :=
  match r with
  | MarginOfSafety => 2
  | _ => 1
  end.

(** The text of a reason: a label, the value in the rule's number
    format, and the threshold it is compared with. *)
Definition label (r : rule) : string :=
  match r with
  | PE => "P/E "
  | PB => "P/B "
  | DebtAssets => "Debt/Assets "
  | CurrentRatio => "Current ratio "
  | MarginOfSafety => "Margin of safety "
  | RevenueGrowth => "Revenue growth "
  | EarningsGrowth => "Earnings growth "
  end.

Definition decimals (r : rule) : nat :=
  match r with
  | PE | PB => 1
  | DebtAssets | CurrentRatio => 2
  | MarginOfSafety | RevenueGrowth | EarningsGrowth => 0
  end.

Definition percent (r : rule) : bool :=
  match r with
  | MarginOfSafety | RevenueGrowth | EarningsGrowth => true
  | _ => false
  end.

Definition number (r : rule) (v : float) : string :=
  if percent r then Fmt.format_pct (decimals r) v
  else Fmt.format_f (decimals r) v.

Definition tail (r : rule) : string :=
  match r with
  | PE => " < 15"
  | PB => " < 1.5"
  | DebtAssets => " < 0.5"
  | CurrentRatio => " > 1.5"
  | MarginOfSafety | RevenueGrowth | EarningsGrowth => ""
  end.

(** The reason strings of section 4.2. *)
Definition reason (r : rule) (v : float) : string :=
  match r with
  | PE => "P/E " ++ Fmt.format_f 1 v ++ " < 15"
  | PB => "P/B " ++ Fmt.format_f 1 v ++ " < 1.5"
  | DebtAssets => "Debt/Assets " ++ Fmt.format_f 2 v ++ " < 0.5"
  | CurrentRatio => "Current ratio " ++ Fmt.format_f 2 v ++ " > 1.5"
  | MarginOfSafety => "Margin of safety " ++ Fmt.format_pct 0 v
  | RevenueGrowth => "Revenue growth " ++ Fmt.format_pct 0 v
  | EarningsGrowth => "Earnings growth " ++ Fmt.format_pct 0 v
  end.

(** A rule is skipped when its value is absent or zero. *)
Definition skipped (r : rule) (fm : FinancialMetrics) (mos : option float)
  : bool :=
  negb (Py.truthy_opt (input r fm mos)).

Definition triggered (r : rule) (fm : FinancialMetrics)
    (mos : option float) : bool :=
  match input r fm mos with
  | Some v => Py.truthy v && threshold r v
  | None => false
  end.

(** The reason of a rule, when it triggers. *)
Definition outcome (r : rule) (fm : FinancialMetrics) (mos : option float)
  : option string :=
  match input r fm mos with
  | Some v => if Py.truthy v && threshold r v then Some (reason r v) else None
  | None => None
  end.

Definition fired (rs : list rule) (fm : FinancialMetrics)
    (mos : option float) : list rule :=
  filter (fun r => triggered r fm mos) rs.

Definition total (rs : list rule) (fm : FinancialMetrics)
    (mos : option float) : Z :=
  fold_right Z.add 0 (map points (fired rs fm mos)).

Fixpoint texts (rs : list rule) (fm : FinancialMetrics)
    (mos : option float) : list string :=
  match rs with
  | [] => []
  | r :: rs' =>
      match outcome r fm mos with
      | Some s => s :: texts rs' fm mos
      | None => texts rs' fm mos
      end
  end.

Definition without (r : rule) (rs : list rule) : list rule :=
  filter (fun r' => negb (rule_eqb r r')) rs.

(** The reason of a rule for the value it reads. *)
Definition text (r : rule) (fm : FinancialMetrics) (mos : option float)
  : string :=
  match input r fm mos with
  | Some v => reason r v
  | None => ""
  end.

(** The number format of a rule: [decimals r] decimals, as a percentage
    when [percent r]. *)
Definition well_formed (r : rule) (s : string) : Prop :=
  if percent r then Fmt.percentage (decimals r) s
  else Fmt.decimals (decimals r) s.

(** The six rules that read a financial metric. *)
Definition metric_rules : list rule :=
  [PE; PB; DebtAssets; CurrentRatio; RevenueGrowth; EarningsGrowth].

(** A rule's required input is absent or zero: the metric it reads, and
    for the margin of safety any of the three line items or the market
    capitalisation. *)
Definition missing (r : rule) (fm : FinancialMetrics) (li : LineItem)
    (market_cap : option float) : bool :=
  match r with
  | MarginOfSafety =>
      negb (Py.truthy_opt (earnings_per_share li)
            && Py.truthy_opt (book_value_per_share li)
            && Py.truthy_opt (outstanding_shares li)
            && Py.truthy_opt market_cap)
  | _ => negb (Py.truthy_opt (input r fm None))
  end.

(** One rule applied to the running score and reasons. *)
Definition apply (r : rule) (fm : FinancialMetrics) (mos : option float)
    (t : tally) : tally :=
  match outcome r fm mos with
  | Some s => award (points r) s t
  | None => t
  end.

(** The result the table gives for one ticker. *)
Definition result (rs : list rule) (ticker : string)
    (fm : FinancialMetrics) (mos : option float) : ScoreResult :=
  {| ticker := ticker;
     score := total rs fm mos;
     margin_of_safety := mos;
     reasons := texts rs fm mos |}.

End Rules.

(** The results among the outcomes of scoring a list of tickers. *)
Fixpoint somes {A : Type} (l : list (option A)) : list A :=
  match l with
  | [] => []
  | Some a :: l' => a :: somes l'
  | None :: l' => somes l'
  end.

(** ** The command line and the report

    [main] reads the tickers and the date from the command line, runs the
    screener and prints the report.  A [str] is modelled by a [string]
    whose characters are the code points below 256; the standard output
    is the list of the lines printed so far. *)

Module Str.

(** [c.isspace()] for a code point below 256: tab to carriage return,
    the four separators 28-31, the space, NEL and the no-break space. *)
Definition isspace (c : ascii) : bool :=
  let n := nat_of_ascii c in
  (((9 <=? n) && (n <=? 13)) || ((28 <=? n) && (n <=? 32))
   || (n =? 133) || (n =? 160))%nat.

Fixpoint lstrip (s : string) : string :=
  match s with
  | EmptyString => EmptyString
  | String c s' => if isspace c then lstrip s' else s
  end.

Fixpoint rstrip (s : string) : string :=
  match s with
  | EmptyString => EmptyString
  | String c s' =>
      match rstrip s' with
      | EmptyString => if isspace c then EmptyString else String c EmptyString
      | r => String c r
      end
  end.

(** [s.strip()] *)
Definition strip (s : string) : string := rstrip (lstrip s).

(** [bool(s)]: a string is truthy when it is not empty. *)
Definition truthy (s : string) : bool :=
  match s with
  | EmptyString => false
  | String _ _ => true
  end.

(** [s.split(sep)] for a separator of one character: the pieces between
    the separators, the empty ones too; one empty piece for [""]. *)
Fixpoint split (sep : ascii) (s : string) : list string :=
  match s with
  | EmptyString => [EmptyString]
  | String c s' =>
      if Ascii.eqb c sep then EmptyString :: split sep s'
      else
        match split sep s' with
        | piece :: pieces => String c piece :: pieces
        | [] => [String c EmptyString]
        end
  end.

(** [sep.join(l)] *)
Fixpoint join (sep : string) (l : list string) : string :=
  match l with
  | [] => EmptyString
  | [x] => x
  | x :: l' => x ++ sep ++ join sep l'
  end.

Fixpoint spaces (n : nat) : string :=
  match n with
  | O => EmptyString
  | S n' => String " "%char (spaces n')
  end.

(** [format(s, ">" + str(width))]: spaces on the left up to [width]. *)
Definition rjust (width : nat) (s : string) : string :=
  spaces (width - String.length s) ++ s.

(** [str(n)] for an [int]. *)
Definition of_int (n : Z) : string :=
  if n <? 0 then "-" ++ Fmt.decimal (- n) else Fmt.decimal n.

(** The character [c] occurs in [s]. *)
Fixpoint has (c : ascii) (s : string) : bool :=
  match s with
  | EmptyString => false
  | String c' s' => Ascii.eqb c' c || has c s'
  end.

End Str.

(** [[t.strip() for t in arg.split(",") if t.strip()]] *)
Definition parse_tickers (arg : string) : list string :=
  map Str.strip
    (filter (fun t => Str.truthy (Str.strip t)) (Str.split ","%char arg)).

(** Computations that print: from the lines printed so far to the lines
    printed and the outcome. *)
Definition io (A : Type) : Type := list string -> list string * exc A.

Definition io_bind {A B : Type} (c : io A) (k : A -> io B) : io B :=
  fun out =>
    match c out with
    | (out', Return a) => k a out'
    | (out', Raise e) => (out', Raise e)
    end.

Definition io_lift {A : Type} (c : exc A) : io A := fun out => (out, c).

(** [print(line)] *)
Definition print (line : string) : io unit :=
  fun out => ((out ++ [line])%list, Return tt).

(** The line printed for one result (lines 119-121). *)
Definition report_line (r : ScoreResult) : string :=
  let mos :=
    match margin_of_safety r with
    | Some v => Fmt.format_pct 0 v
    | None => "N/A"
    end in
  let reason_str := Str.join "; " (reasons r) in
  Str.rjust 6 (ticker r) ++ ": Score " ++ Str.of_int (score r)
  ++ ", MOS " ++ mos ++ " - " ++ reason_str.

(** The [for] loop of [main]. *)
Fixpoint print_results (results : list ScoreResult) : io unit :=
  match results with
  | [] => io_lift (Return tt)
  | r :: rest => io_bind (print (report_line r)) (fun _ => print_results rest)
  end.

(** The first line of the report (line 117). *)
Definition header (end_date : string) : string :=
  "Value Screen Results as of " ++ end_date ++ ":".

(** [main], given the two parsed arguments [--tickers] and [--end-date]. *)
Definition main (api : Api) (args_tickers args_end_date : string) : io unit :=
  let tickers := parse_tickers args_tickers in
  io_bind (io_lift (screen_stocks api tickers args_end_date)) (fun results =>
  io_bind (print (header args_end_date)) (fun _ => print_results results)).

(** ** Sample data

    A stub of the data API over a handful of tickers, for running the
    screener on concrete inputs. *)

Module Sample.

Definition metrics (pe pb da cr rg eg : option float) : FinancialMetrics :=
  {| price_to_earnings_ratio := pe;
     price_to_book_ratio := pb;
     debt_to_assets := da;
     current_ratio := cr;
     revenue_growth := rg;
     earnings_growth := eg |}.

Definition items (eps bvps shares : option float) : LineItem :=
  {| earnings_per_share := eps;
     book_value_per_share := bvps;
     outstanding_shares := shares |}.

(** Every metric rule holds. *)
Definition strong : FinancialMetrics :=
  (metrics (Some 10) (Some 1.2) (Some 0.25) (Some 2) (Some 0.1) (Some 0.2))%float.

(** The example of the specification: Graham number 30, price 15. *)
Definition graham : LineItem := (items (Some 2) (Some 20) (Some 100))%float.

(** A company with negative earnings. *)
Definition loss : LineItem := (items (Some (-1)) (Some 10) (Some 100))%float.

(** Negative earnings and a negative share count. *)
Definition short : LineItem := (items (Some (-1)) (Some 1) (Some (-1)))%float.

Definition bare : LineItem := items None None None.

(** P/E, P/B and the current ratio hold; nothing else is reported. *)
Definition three : FinancialMetrics :=
  (metrics (Some 9) (Some 1) None (Some 3) None None)%float.

Definition data (ticker : string)
  : list FinancialMetrics * list LineItem * option float :=
  if String.eqb ticker "GOOD" then ([strong], [graham], Some 1500%float)
  else if String.eqb ticker "LOSS" then ([strong], [loss], Some 1000%float)
  else if String.eqb ticker "NEGCAP" then ([strong], [graham], Some (-5)%float)
  else if String.eqb ticker "EMPTY" then ([], [graham], Some 1500%float)
  else if String.eqb ticker "NODEBT" then
    ([metrics (Some 10%float) None (Some 0%float) None None None],
     [bare], Some 100%float)
  else if String.eqb ticker "A" then
    ([metrics (Some 12%float) None None None None None],
     [bare], Some 100%float)
  else if String.eqb ticker "B" then ([three], [bare], Some 100%float)
  else if String.eqb ticker "C" then
    ([metrics None (Some 0.8%float) None None None None],
     [bare], Some 100%float)
  else ([], [], None).

Definition api : Api :=
  {| get_financial_metrics := fun t _ _ _ => Return (fst (fst (data t)));
     search_line_items := fun t _ _ _ _ => Return (snd (fst (data t)));
     get_market_cap := fun t _ => Return (snd (data t)) |}.

Definition today : string := "2024-01-01".

End Sample.

(** Stubs of the data API that do not look at the ticker. *)
Module Stub.

(** The same data for every ticker. *)
Definition constant (fm : FinancialMetrics) (li : LineItem)
    (market_cap : option float) : Api :=
  {| get_financial_metrics := fun _ _ _ _ => Return [fm];
     search_line_items := fun _ _ _ _ _ => Return [li];
     get_market_cap := fun _ _ => Return market_cap |}.

(** The sample data, with the ticker DOWN failing in the first fetch. *)
Definition failing : Api :=
  {| get_financial_metrics := fun t e p l =>
       if String.eqb t "DOWN" then Raise (ApiError "timeout")
       else get_financial_metrics Sample.api t e p l;
     search_line_items := search_line_items Sample.api;
     get_market_cap := get_market_cap Sample.api |}.

End Stub.

(** * Properties *)

Example fmt1 : Fmt.format_f 1 12.34%float = "12.3". Proof. vm_compute. reflexivity. Qed.
Example fmt2 : Fmt.format_f 2 0.125%float = "0.12". Proof. vm_compute. reflexivity. Qed.
Example fmt3 : Fmt.format_f 2 0.375%float = "0.38". Proof. vm_compute. reflexivity. Qed.
Example fmt4 : Fmt.format_f 1 (-0.04)%float = "-0.0". Proof. vm_compute. reflexivity. Qed.
Example fmt5 : Fmt.format_pct 0 1%float = "100%". Proof. vm_compute. reflexivity. Qed.
Example fmt6 : Fmt.format_pct 0 0.305%float = "30%". Proof. vm_compute. reflexivity. Qed.
Example fmt7 : Fmt.format_f 1 1e22%float = "10000000000000000000000.0". Proof. vm_compute. reflexivity. Qed.
Example fmt8 : Fmt.format_f 0 2.5%float = "2". Proof. vm_compute. reflexivity. Qed.
Example fmt9 : Fmt.format_f 0 3.5%float = "4". Proof. vm_compute. reflexivity. Qed.
Example fmt10 : Fmt.format_f 2 1.005%float = "1.00". Proof. vm_compute. reflexivity. Qed.
Example fmt11 : Fmt.format_f 2 9.999%float = "10.00". Proof. vm_compute. reflexivity. Qed.
Example fmt12 : Fmt.format_f 1 neg_infinity = "-inf". Proof. vm_compute. reflexivity. Qed.

Example sample_good :
  score_stock Sample.api "GOOD" Sample.today =
  Return (Some {| ticker := "GOOD"; score := 8;
                  margin_of_safety := Some 1%float;
                  reasons := ["P/E 10.0 < 15"; "P/B 1.2 < 1.5";
                              "Debt/Assets 0.25 < 0.5";
                              "Current ratio 2.00 > 1.5";
                              "Margin of safety 100%";
                              "Revenue growth 10%";
                              "Earnings growth 20%"] |}).
Proof. vm_compute. reflexivity. Qed.

Example sample_screen :
  option_map (map (fun r => (ticker r, score r)))
    (match screen_stocks Sample.api ["A"; "EMPTY"; "B"; "C"; "GOOD"] Sample.today with
     | Return rs => Some rs | Raise _ => None end) =
  Some [("GOOD", 8); ("B", 3); ("A", 1); ("C", 1)].
Proof. vm_compute. reflexivity. Qed.

(** ** Facts about float comparisons *)

Section FloatFacts.

Lemma zero_SF : Prim2SF 0%float = S754_zero false.
Proof. reflexivity. Qed.

Lemma lt_zero_not_gt (x : float) :
  (x <? 0)%float = true -> Py.gt x 0 = false.
Proof.
  unfold Py.gt. rewrite !ltb_spec, zero_SF.
  destruct (Prim2SF x) as [[|]|[|]| |[|] ? ?]; cbn; congruence.
Qed.

Lemma gt_zero_nonzero (x : float) :
  Py.gt x 0 = true -> (x =? 0)%float = false.
Proof.
  unfold Py.gt. rewrite ltb_spec, eqb_spec, zero_SF.
  destruct (Prim2SF x) as [[|]|[|]| |[|] ? ?]; cbn; congruence.
Qed.

Lemma zero_not_gt (x : float) :
  (x =? 0)%float = true -> Py.gt x 0 = false.
Proof.
  unfold Py.gt. rewrite ltb_spec, eqb_spec, zero_SF.
  destruct (Prim2SF x) as [[|]|[|]| |[|] ? ?]; cbn; congruence.
Qed.

Lemma nonneg_not_neg (x : float) :
  (0 <=? x)%float = true -> (x <? 0)%float = false.
Proof.
  rewrite ltb_spec, leb_spec, zero_SF.
  destruct (Prim2SF x) as [[|]|[|]| |[|] ? ?]; cbn; congruence.
Qed.

(** Whatever exceeds 0.3 is not zero. *)
Lemma gt_03_truthy (x : float) :
  Py.gt x 0.3 = true -> Py.truthy x = true.
Proof.
  unfold Py.gt, Py.truthy. rewrite ltb_spec, eqb_spec, zero_SF.
  change (Prim2SF 0.3) with (S754_finite false 5404319552844595 (-54)).
  destruct (Prim2SF x) as [[|]|[|]| |[|] ? ?]; cbn; congruence.
Qed.

End FloatFacts.

(** ** The domain of [math.sqrt] *)

Section SqrtDomain.

Lemma shr_1_nonneg (mrs : shr_record) :
  0 <= shr_m mrs -> 0 <= shr_m (shr_1 mrs).
Proof.
  destruct mrs as [m r s]; cbn.
  destruct m as [|[p|p|]|[p|p|]]; cbn; lia.
Qed.

Lemma iter_shr_1_nonneg (p : positive) (mrs : shr_record) :
  0 <= shr_m mrs -> 0 <= shr_m (iter_pos shr_1 p mrs).
Proof.
  revert mrs; induction p as [p IH|p IH|]; intros mrs H; cbn.
  - apply IH, IH, shr_1_nonneg, H.
  - apply IH, IH, H.
  - apply shr_1_nonneg, H.
Qed.

Lemma shr_fexp_nonneg (m e : Z) (l : location) :
  0 <= m -> 0 <= shr_m (fst (shr_fexp prec emax m e l)).
Proof.
  intros H. unfold shr_fexp, shr.
  assert (H0 : 0 <= shr_m (shr_record_of_loc m l))
    by (destruct l as [|[]]; exact H).
  destruct (fexp prec emax (Zdigits2 m + e) - e); cbn; auto.
  apply iter_shr_1_nonneg, H0.
Qed.

Lemma round_nearest_even_nonneg (m : Z) (l : location) :
  0 <= m -> 0 <= round_nearest_even m l.
Proof.
  intros H. destruct l as [|[]]; cbn; try lia.
  destruct (IntDef.Z.even m); lia.
Qed.

Lemma binary_round_aux_not_nan (s : bool) (m e : Z) (l : location) :
  0 <= m -> binary_round_aux prec emax s m e l <> S754_nan.
Proof.
  intros H. unfold binary_round_aux.
  pose proof (shr_fexp_nonneg m e l H) as H1.
  destruct (shr_fexp prec emax m e l) as [mrs' e']; cbn [fst] in H1.
  pose proof (shr_fexp_nonneg _ e' loc_Exact
                (round_nearest_even_nonneg _ (loc_of_shr_record mrs') H1)) as H2.
  destruct (shr_fexp prec emax _ e' loc_Exact) as [mrs'' e'']; cbn [fst] in H2.
  destruct (shr_m mrs''); try lia; try discriminate.
  destruct (e'' <=? emax - prec); discriminate.
Qed.

Lemma SFsqrt_nan (f : spec_float) :
  SF64sqrt f = S754_nan ->
  f = S754_nan \/ SFltb f (S754_zero false) = true.
Proof.
  destruct f as [s|[|]| |[|] m e]; cbn; auto; try discriminate.
  unfold SF64sqrt, SFsqrt.
  destruct (SFsqrt_core_binary prec emax (Z.pos m) e) as [[mz ez] lz] eqn:E.
  intros H. exfalso. revert H. apply binary_round_aux_not_nan.
  unfold SFsqrt_core_binary in E.
  set (m' := match e - 2 * _ with 0 => _ | Z.pos _ => _ | Z.neg _ => _ end) in E.
  assert (Hm : 0 <= m').
  { subst m'. destruct (e - 2 * _); try lia. apply Z.shiftl_nonneg. lia. }
  pose proof (Z.sqrtrem_spec m' Hm) as Hs.
  change IntDef.Z.sqrtrem with Z.sqrtrem in E.
  destruct (Z.sqrtrem m') as [q r]. injection E as <- _ _.
  nia.
Qed.

Lemma is_nan_SF (x : float) :
  is_nan x = true <-> Prim2SF x = S754_nan.
Proof.
  unfold is_nan. rewrite eqb_spec. unfold SFeqb.
  destruct (Prim2SF x) as [[|]|[|]| |[|] m e]; cbn;
    rewrite ?Z.compare_refl, ?Pos.compare_cont_refl, ?Pos.compare_refl;
    cbn; split; congruence.
Qed.

(** [math.sqrt] raises exactly on the arguments below zero. *)
Lemma math_sqrt_domain (x : float) :
  Py.math_sqrt x =
  if (x <? 0)%float then Raise (ValueError "math domain error")
  else Return (PrimFloat.sqrt x).
Proof.
  unfold Py.math_sqrt.
  destruct (x <? 0)%float eqn:Hlt.
  - assert (H1 : is_nan (PrimFloat.sqrt x) = true).
    { apply is_nan_SF. rewrite sqrt_spec. rewrite ltb_spec in Hlt.
      change (Prim2SF 0) with (S754_zero false) in Hlt.
      destruct (Prim2SF x) as [[|]|[|]| |[|] m e]; cbn in *; congruence. }
    assert (H2 : is_nan x = false).
    { destruct (is_nan x) eqn:E; auto. apply is_nan_SF in E.
      rewrite ltb_spec, E in Hlt. discriminate. }
    now rewrite H1, H2.
  - destruct (is_nan (PrimFloat.sqrt x)) eqn:H1; auto.
    destruct (is_nan x) eqn:H2; auto. exfalso.
    apply is_nan_SF in H1. rewrite sqrt_spec in H1.
    apply SFsqrt_nan in H1. destruct H1 as [H1|H1].
    + apply is_nan_SF in H1. congruence.
    + rewrite ltb_spec in Hlt. change (Prim2SF 0) with (S754_zero false) in Hlt.
      congruence.
Qed.
End SqrtDomain.

(** ** The margin of safety *)

Section MarginOfSafety.

(** All the paths through [compute_margin_of_safety]: the two
    divisions never fail, the square root fails on a negative
    product. *)
Lemma margin_cases (li : LineItem) (mc : option float) :
  compute_margin_of_safety li mc =
  match earnings_per_share li, book_value_per_share li,
        outstanding_shares li, mc with
  | Some eps, Some bvps, Some shares, Some m =>
      if guard eps bvps shares m then
        if (22.5 * eps * bvps <? 0)%float
        then Raise (ValueError "math domain error")
        else if Py.gt (m / shares) 0
             then Return (Some (graham_margin eps bvps shares m))
             else Return None
      else Return None
  | _, _, _, _ => Return None
  end.
Proof.
  unfold compute_margin_of_safety.
  destruct (earnings_per_share li) as [eps|]; [|reflexivity].
  destruct (book_value_per_share li) as [bvps|]; [|reflexivity].
  destruct (outstanding_shares li) as [shares|]; [|reflexivity].
  destruct mc as [m|]; [|reflexivity].
  fold (guard eps bvps shares m).
  destruct (guard eps bvps shares m) eqn:G; [|reflexivity].
  rewrite math_sqrt_domain.
  destruct (22.5 * eps * bvps <? 0)%float; [reflexivity|].
  cbn [bind]. unfold Py.truediv at 1.
  assert (Hs : (shares =? 0)%float = false).
  { unfold guard, Py.truthy in G.
    destruct (shares =? 0)%float; [|reflexivity].
    rewrite !andb_false_r in G. discriminate. }
  rewrite Hs. cbn [bind].
  destruct (Py.gt (m / shares) 0) eqn:P; [|reflexivity].
  unfold Py.truediv. rewrite (gt_zero_nonzero _ P). reflexivity.
Qed.

(** A missing or zero input, or a market capitalisation that is not
    positive, gives [None] without reaching the square root. *)
Lemma margin_absent (li : LineItem) (mc : option float) :
  Py.truthy_opt (earnings_per_share li) = false \/
  Py.truthy_opt (book_value_per_share li) = false \/
  Py.truthy_opt (outstanding_shares li) = false \/
  Py.truthy_opt mc = false \/
  (exists m, mc = Some m /\ Py.gt m 0 = false) ->
  compute_margin_of_safety li mc = Return None.
Proof.
  intros H. rewrite margin_cases.
  destruct (earnings_per_share li) as [eps|]; [|reflexivity].
  destruct (book_value_per_share li) as [bvps|]; [|reflexivity].
  destruct (outstanding_shares li) as [shares|]; [|reflexivity].
  destruct mc as [m|]; [|reflexivity].
  replace (guard eps bvps shares m) with false; [reflexivity|].
  unfold guard. cbn [Py.truthy_opt] in H.
  destruct H as [H|[H|[H|[H|(m' & E & H)]]]];
    try (injection E as <-); rewrite H;
    rewrite ?andb_false_r; reflexivity.
Qed.

(** With the guard passed, a negative product raises. *)
Lemma margin_negative_product (li : LineItem) (eps bvps shares m : float) :
  earnings_per_share li = Some eps ->
  book_value_per_share li = Some bvps ->
  outstanding_shares li = Some shares ->
  guard eps bvps shares m = true ->
  (22.5 * eps * bvps <? 0)%float = true ->
  compute_margin_of_safety li (Some m) =
  Raise (ValueError "math domain error").
Proof.
  intros He Hb Hs G N. rewrite margin_cases, He, Hb, Hs, G, N. reflexivity.
Qed.

(** A value is returned only past the guard, for a product that is
    not negative and a positive price. *)
Lemma margin_some_inv (li : LineItem) (mc : option float) (v : float) :
  compute_margin_of_safety li mc = Return (Some v) ->
  exists eps bvps shares m,
    earnings_per_share li = Some eps /\
    book_value_per_share li = Some bvps /\
    outstanding_shares li = Some shares /\
    mc = Some m /\
    guard eps bvps shares m = true /\
    (22.5 * eps * bvps <? 0)%float = false /\
    Py.gt (m / shares) 0 = true /\
    v = graham_margin eps bvps shares m.
Proof.
  rewrite margin_cases.
  destruct (earnings_per_share li) as [eps|]; [|discriminate].
  destruct (book_value_per_share li) as [bvps|]; [|discriminate].
  destruct (outstanding_shares li) as [shares|]; [|discriminate].
  destruct mc as [m|]; [|discriminate].
  destruct (guard eps bvps shares m) eqn:G; [|discriminate].
  destruct (22.5 * eps * bvps <? 0)%float eqn:N; [discriminate|].
  destruct (Py.gt (m / shares) 0) eqn:P; [|discriminate].
  intros H. injection H as <-.
  exists eps, bvps, shares, m. repeat split; auto.
Qed.

(** The function raises on a negative product only. *)
Lemma margin_raise_inv (li : LineItem) (mc : option float) (e : exn) :
  compute_margin_of_safety li mc = Raise e ->
  e = ValueError "math domain error" /\
  exists eps bvps,
    earnings_per_share li = Some eps /\
    book_value_per_share li = Some bvps /\
    (22.5 * eps * bvps <? 0)%float = true.
Proof.
  rewrite margin_cases.
  destruct (earnings_per_share li) as [eps|]; [|discriminate].
  destruct (book_value_per_share li) as [bvps|]; [|discriminate].
  destruct (outstanding_shares li) as [shares|]; [|discriminate].
  destruct mc as [m|]; [|discriminate].
  destruct (guard eps bvps shares m) eqn:G; [|discriminate].
  destruct (22.5 * eps * bvps <? 0)%float eqn:N.
  - intros H. injection H as <-. split; [reflexivity|].
    exists eps, bvps. auto.
  - destruct (Py.gt (m / shares) 0); discriminate.
Qed.

End MarginOfSafety.

(** C1: with eps, bvps and shares present and nonzero, a positive market
    capitalisation and a negative product 22.5 * eps * bvps, the function
    should return [None].  At eps = -1, bvps = 10, shares = 100 and a
    market capitalisation of 1000 the product is -225, and the code
    raises [ValueError] from [math.sqrt] instead; the exception ends the
    whole screening run. *)
Theorem C1_negative_product_raises :
  guard (-1) 10 100 1000 = true /\
  (22.5 * -1 * 10 <? 0)%float = true /\
  compute_margin_of_safety Sample.loss (Some 1000%float) =
    Raise (ValueError "math domain error") /\
  score_stock Sample.api "LOSS" Sample.today =
    Raise (ValueError "math domain error") /\
  screen_stocks Sample.api ["GOOD"; "LOSS"] Sample.today =
    Raise (ValueError "math domain error").
Proof. vm_compute. repeat split; reflexivity. Qed.

(** C3: a price that is not positive should give [None].  At eps = -1,
    bvps = 1, shares = -1 and a market capitalisation of 1 the guard is
    passed and the price 1 / -1 is not positive, but the square root of
    the negative product is taken first and raises [ValueError]. *)
Theorem C3_nonpositive_price_raises :
  guard (-1) 1 (-1) 1 = true /\
  Py.gt (1 / -1) 0 = false /\
  compute_margin_of_safety Sample.short (Some 1%float) =
    Raise (ValueError "math domain error").
Proof. vm_compute. repeat split; reflexivity. Qed.

(** C4: for eps, bvps and shares present and nonzero, a positive market
    capitalisation, a product 22.5 * eps * bvps that is not negative and
    a positive price, the function returns
    (sqrt (22.5 * eps * bvps) - price) / price, where price is
    market_cap / shares. *)
Theorem C4_margin_formula
    (li : LineItem) (eps bvps shares market_cap : float) :
  earnings_per_share li = Some eps ->
  book_value_per_share li = Some bvps ->
  outstanding_shares li = Some shares ->
  Py.truthy eps = true ->
  Py.truthy bvps = true ->
  Py.truthy shares = true ->
  Py.gt market_cap 0 = true ->
  (0 <=? 22.5 * eps * bvps)%float = true ->
  Py.gt (market_cap / shares) 0 = true ->
  compute_margin_of_safety li (Some market_cap) =
  Return (Some ((PrimFloat.sqrt (22.5 * eps * bvps) - market_cap / shares)
                / (market_cap / shares))%float).
Proof.
  intros He Hb Hs Te Tb Ts Gm Hp Hq.
  rewrite margin_cases, He, Hb, Hs.
  unfold guard. rewrite Te, Tb, Ts, Gm.
  unfold Py.truthy. rewrite (gt_zero_nonzero _ Gm). cbn [negb andb].
  rewrite (nonneg_not_neg _ Hp), Hq. reflexivity.
Qed.

(** The example of the specification: eps = 2, bvps = 20, shares = 100
    and a market capitalisation of 1500 give exactly 1.0. *)
Lemma C4_margin_formula_example :
  compute_margin_of_safety Sample.graham (Some 1500%float) =
  Return (Some 1%float).
Proof.
  rewrite (C4_margin_formula Sample.graham 2 20 100 1500);
    reflexivity.
Defined.


(** ** The rule table and [score_stock] *)

Section Scoring.

Variables (fm : FinancialMetrics) (mos : option float).

Lemma outcome_triggered (r : Rules.rule) :
  Rules.outcome r fm mos =
  if Rules.triggered r fm mos
  then option_map (Rules.reason r) (Rules.input r fm mos)
  else None.
Proof.
  unfold Rules.outcome, Rules.triggered.
  destruct (Rules.input r fm mos) as [v|]; [|reflexivity].
  destruct (Py.truthy v && Rules.threshold r v); reflexivity.
Qed.

Lemma total_cons (r : Rules.rule) (rs : list Rules.rule) :
  Rules.total (r :: rs) fm mos =
  (if Rules.triggered r fm mos then Rules.points r else 0)
  + Rules.total rs fm mos.
Proof.
  unfold Rules.total, Rules.fired. cbn [filter].
  destruct (Rules.triggered r fm mos); reflexivity.
Qed.

Lemma texts_length (rs : list Rules.rule) :
  List.length (Rules.texts rs fm mos) = List.length (Rules.fired rs fm mos).
Proof.
  induction rs as [|r rs IH]; [reflexivity|].
  unfold Rules.fired in *. cbn [Rules.texts filter].
  rewrite outcome_triggered. unfold Rules.triggered.
  destruct (Rules.input r fm mos) as [v|]; [|exact IH].
  destruct (Py.truthy v && Rules.threshold r v);
    cbn [option_map List.length]; [f_equal|]; exact IH.
Qed.

(** Applying the rules one after the other adds up the points and
    appends the reasons, in the order of the list. *)
Lemma apply_all (rs : list Rules.rule) (t : tally) :
  fold_left (fun t r => Rules.apply r fm mos t) rs t =
  (fst t + Rules.total rs fm mos, (snd t ++ Rules.texts rs fm mos)%list).
Proof.
  revert t; induction rs as [|r rs IH]; intros [z l].
  - cbn. now rewrite Z.add_0_r, app_nil_r.
  - cbn [fold_left]. rewrite IH, total_cons. unfold Rules.apply.
    cbn [Rules.texts]. rewrite outcome_triggered.
    destruct (Rules.triggered r fm mos) eqn:T.
    + unfold Rules.triggered in T.
      destruct (Rules.input r fm mos) as [v|]; [|discriminate].
      cbn. rewrite <- app_assoc. f_equal. lia.
    + cbn. f_equal.
Qed.

Lemma total_bounds (rs : list Rules.rule) :
  0 <= Rules.total rs fm mos <= fold_right Z.add 0 (map Rules.points rs).
Proof.
  induction rs as [|r rs IH]; [cbn; lia|].
  rewrite total_cons. cbn [map fold_right].
  destruct (Rules.triggered r fm mos); destruct r; cbn [Rules.points]; lia.
Qed.

(** One rule applied to a tally, written as the [if] of the source. *)
Lemma apply_step (r : Rules.rule) (u : tally) :
  Rules.apply r fm mos u =
  match Rules.input r fm mos with
  | Some v =>
      if Py.truthy v && Rules.threshold r v
      then award (Rules.points r) (Rules.reason r v) u else u
  | None => u
  end.
Proof.
  unfold Rules.apply, Rules.outcome.
  destruct (Rules.input r fm mos) as [v|]; [|reflexivity].
  destruct (Py.truthy v && Rules.threshold r v); reflexivity.
Qed.

End Scoring.

Section ScoreStock.

Variables (api : Api) (t d : string).
Variables (metrics : list FinancialMetrics) (line_items : list LineItem).
Variable market_cap : option float.

Hypothesis fetched_metrics :
  get_financial_metrics api t d "annual" 1 = Return metrics.
Hypothesis fetched_items :
  search_line_items api t DEFAULT_LINE_ITEMS d "annual" 1 = Return line_items.
Hypothesis fetched_cap : get_market_cap api t d = Return market_cap.

(** With the three fetches done, [score_stock] skips the ticker on
    missing data and otherwise returns what the rule table gives, once
    the margin of safety is computed. *)
Lemma score_stock_fetched :
  score_stock api t d =
  match metrics, line_items, market_cap with
  | fm :: _, li :: _, Some _ =>
      mos <- compute_margin_of_safety li market_cap ;;
      Return (Some (Rules.result Rules.order t fm mos))
  | _, _, _ => Return None
  end.
Proof.
  unfold score_stock.
  rewrite fetched_metrics, fetched_items, fetched_cap. cbn [bind].
  destruct metrics as [|fm ?]; [reflexivity|].
  destruct line_items as [|li ?]; [reflexivity|].
  destruct market_cap as [m|]; [|reflexivity].
  destruct (compute_margin_of_safety li (Some m)) as [mos|e];
    [|reflexivity].
  cbn [bind]. do 2 f_equal. unfold Rules.result.
  set (u := fold_left (fun u r => Rules.apply r fm mos u) Rules.order (0, [])).
  replace (Rules.total Rules.order fm mos) with (fst u)
    by (subst u; now rewrite apply_all).
  replace (Rules.texts Rules.order fm mos) with (snd u)
    by (subst u; now rewrite apply_all).
  subst u. cbn [fold_left Rules.order]. rewrite !apply_step.
  cbn [Rules.input Rules.threshold Rules.points].
  destruct mos as [v|]; [|reflexivity].
  destruct (Py.gt v 0.3) eqn:G.
  - rewrite (gt_03_truthy v G). reflexivity.
  - rewrite andb_false_r. reflexivity.
Qed.

End ScoreStock.

(** ** The shape of formatted numbers *)

Section Formatting.

Lemma append_empty (s : string) : s ++ "" = s.
Proof. induction s as [|c s IH]; cbn; congruence. Qed.

Lemma append_length (a b : string) :
  String.length (a ++ b) = (String.length a + String.length b)%nat.
Proof. induction a as [|c a IH]; cbn; congruence. Qed.

Lemma all_digits_append (a b : string) :
  Fmt.all_digits (a ++ b) = Fmt.all_digits a && Fmt.all_digits b.
Proof.
  induction a as [|c a IH]; cbn; [reflexivity|].
  now rewrite IH, andb_assoc.
Qed.

Lemma digit_is_digit (n : Z) : Fmt.is_digit (Fmt.digit (n mod 10)) = true.
Proof.
  unfold Fmt.digit.
  assert (H : (Z.to_nat (n mod 10) < 10)%nat)
    by (pose proof (Z.mod_pos_bound n 10); lia).
  destruct (Z.to_nat (n mod 10)) as [|k]; [reflexivity|].
  do 9 (destruct k as [|k]; [reflexivity|]). lia.
Qed.

Lemma low_digits_all (k : nat) (n : Z) :
  Fmt.all_digits (Fmt.low_digits k n) = true.
Proof.
  revert n; induction k as [|k IH]; intros n; cbn [Fmt.low_digits];
    [reflexivity|].
  rewrite all_digits_append, IH. cbn [Fmt.all_digits andb].
  now rewrite digit_is_digit.
Qed.

Lemma low_digits_length (k : nat) (n : Z) :
  String.length (Fmt.low_digits k n) = k.
Proof.
  revert n; induction k as [|k IH]; intros n; cbn [Fmt.low_digits];
    [reflexivity|].
  rewrite append_length, IH. cbn. lia.
Qed.

Lemma uint_all_digits (d : Decimal.uint) :
  Fmt.all_digits (NilEmpty.string_of_uint d) = true.
Proof. induction d; cbn; auto. Qed.

Lemma decimal_all_digits (n : Z) : Fmt.all_digits (Fmt.decimal n) = true.
Proof.
  unfold Fmt.decimal, NilZero.string_of_uint.
  destruct (N.to_uint (Z.to_N n)) eqn:E; try reflexivity;
    rewrite <- E; apply uint_all_digits.
Qed.

Lemma decimal_nonempty (n : Z) : Fmt.decimal n <> "".
Proof.
  unfold Fmt.decimal, NilZero.string_of_uint.
  destruct (N.to_uint (Z.to_N n)); discriminate.
Qed.

Lemma fixed_decimals (prec : nat) (s : bool) (n : Z) :
  Fmt.decimals prec (Fmt.sign s ++ Fmt.fixed prec n).
Proof.
  unfold Fmt.fixed. apply Fmt.decimals_finite.
  - apply decimal_nonempty.
  - apply decimal_all_digits.
  - apply low_digits_all.
  - apply low_digits_length.
Qed.

(** ['f'] formatting gives a sign, digits, and exactly [prec] decimals
    (or [inf], [-inf], [nan]). *)
Lemma format_f_decimals (prec : nat) (x : float) :
  Fmt.decimals prec (Fmt.format_f prec x).
Proof.
  unfold Fmt.format_f. destruct (Prim2SF x) as [s|s| |s m e].
  - apply fixed_decimals.
  - apply Fmt.decimals_inf.
  - apply Fmt.decimals_nan.
  - apply fixed_decimals.
Qed.

Lemma format_pct_percentage (prec : nat) (x : float) :
  Fmt.percentage prec (Fmt.format_pct prec x).
Proof.
  exists (Fmt.format_f prec (x * 100)). split; [reflexivity|].
  apply format_f_decimals.
Qed.

End Formatting.


(** ** Properties of the rule table *)

Section Table.

Variables (fm : FinancialMetrics) (mos : option float).

(** The reasons are the texts of the triggered rules, in the order of
    the list. *)
Lemma texts_fired (rs : list Rules.rule) :
  Rules.texts rs fm mos =
  map (fun r => Rules.text r fm mos) (Rules.fired rs fm mos).
Proof.
  induction rs as [|r rs IH]; [reflexivity|].
  unfold Rules.fired in *. cbn [Rules.texts filter].
  rewrite outcome_triggered.
  destruct (Rules.triggered r fm mos) eqn:T; [|exact IH].
  cbn [map]. rewrite <- IH. unfold Rules.text, Rules.triggered in *.
  destruct (Rules.input r fm mos) as [v|]; [reflexivity|discriminate].
Qed.

Lemma skipped_not_triggered (r : Rules.rule) :
  Rules.skipped r fm mos = true -> Rules.triggered r fm mos = false.
Proof.
  unfold Rules.skipped, Rules.triggered, Py.truthy_opt.
  destruct (Rules.input r fm mos) as [v|]; [|reflexivity].
  destruct (Py.truthy v); [discriminate|reflexivity].
Qed.

(** A rule that does not trigger can be left out of the list. *)
Lemma without_not_triggered (r : Rules.rule) (rs : list Rules.rule) :
  Rules.triggered r fm mos = false ->
  Rules.fired rs fm mos = Rules.fired (Rules.without r rs) fm mos.
Proof.
  intros T. unfold Rules.fired, Rules.without.
  induction rs as [|r' rs IH]; [reflexivity|]. cbn [filter].
  destruct (Rules.rule_eqb r r') eqn:E; cbn [negb filter].
  - replace r' with r by (destruct r, r'; (reflexivity || discriminate)).
    now rewrite T.
  - destruct (Rules.triggered r' fm mos); now rewrite IH.
Qed.

Lemma mos_triggered :
  Rules.triggered Rules.MarginOfSafety fm mos =
  match mos with
  | Some v => Py.gt v 0.3
  | None => false
  end.
Proof.
  unfold Rules.triggered. cbn [Rules.input Rules.threshold].
  destruct mos as [v|]; [|reflexivity].
  destruct (Py.gt v 0.3) eqn:G; [|apply andb_false_r].
  now rewrite (gt_03_truthy v G).
Qed.

(** The score is the number of triggered rules, plus one when the
    margin-of-safety rule is among them. *)
Lemma total_order :
  Rules.total Rules.order fm mos =
  Z.of_nat (List.length (Rules.fired Rules.order fm mos))
  + (if Rules.triggered Rules.MarginOfSafety fm mos then 1 else 0).
Proof.
  unfold Rules.total, Rules.fired, Rules.order. cbn [filter].
  destruct (Rules.triggered Rules.PE fm mos),
           (Rules.triggered Rules.PB fm mos),
           (Rules.triggered Rules.DebtAssets fm mos),
           (Rules.triggered Rules.CurrentRatio fm mos),
           (Rules.triggered Rules.MarginOfSafety fm mos),
           (Rules.triggered Rules.RevenueGrowth fm mos),
           (Rules.triggered Rules.EarningsGrowth fm mos);
    reflexivity.
Qed.

(** A triggered rule reads a value, and its reason is the label, that
    value in the rule's format, and the threshold. *)
Lemma text_parts (r : Rules.rule) :
  Rules.triggered r fm mos = true ->
  exists v,
    Rules.input r fm mos = Some v /\
    Rules.text r fm mos = Rules.label r ++ Rules.number r v ++ Rules.tail r /\
    Rules.well_formed r (Rules.number r v).
Proof.
  unfold Rules.triggered, Rules.text.
  destruct (Rules.input r fm mos) as [v|]; [intros _|discriminate].
  exists v. split; [reflexivity|]. split.
  - destruct r; cbn; rewrite ?append_empty; reflexivity.
  - unfold Rules.well_formed, Rules.number.
    destruct (Rules.percent r).
    + apply format_pct_percentage.
    + apply format_f_decimals.
Qed.

End Table.

(** ** Results of [score_stock] *)

(** A result of [score_stock] comes from fetched data that is all
    there, and is what the rule table gives. *)
Lemma score_stock_inv (api : Api) (t d : string) (r : ScoreResult) :
  score_stock api t d = Return (Some r) ->
  exists fm ms li ls m mos,
    get_financial_metrics api t d "annual" 1 = Return (fm :: ms) /\
    search_line_items api t DEFAULT_LINE_ITEMS d "annual" 1
      = Return (li :: ls) /\
    get_market_cap api t d = Return (Some m) /\
    compute_margin_of_safety li (Some m) = Return mos /\
    r = Rules.result Rules.order t fm mos.
Proof.
  intros H.
  destruct (get_financial_metrics api t d "annual" 1) as [ms|e] eqn:Hm;
    [|unfold score_stock in H; rewrite Hm in H; discriminate].
  destruct (search_line_items api t DEFAULT_LINE_ITEMS d "annual" 1)
    as [ls|e] eqn:Hl;
    [|unfold score_stock in H; rewrite Hm, Hl in H; discriminate].
  destruct (get_market_cap api t d) as [mc|e] eqn:Hc;
    [|unfold score_stock in H; rewrite Hm, Hl, Hc in H; discriminate].
  rewrite (score_stock_fetched api t d ms ls mc Hm Hl Hc) in H.
  destruct ms as [|fm ms]; [discriminate|].
  destruct ls as [|li ls]; [discriminate|].
  destruct mc as [m|]; [|discriminate].
  destruct (compute_margin_of_safety li (Some m)) as [mos|e] eqn:Hx;
    [|discriminate].
  injection H as <-. exists fm, ms, li, ls, m, mos. auto.
Qed.

(** The ticker of a result is the ticker that was scored. *)
Lemma score_stock_ticker (api : Api) (t d : string) (r : ScoreResult) :
  score_stock api t d = Return (Some r) -> ticker r = t.
Proof.
  intros H. apply score_stock_inv in H.
  destruct H as (fm & ms & li & ls & m & mos & _ & _ & _ & _ & ->).
  reflexivity.
Qed.

(** C2: every result of [score_stock] has a score between 0 and 8. *)
Theorem C2_score_range (api : Api) (t d : string) (r : ScoreResult) :
  score_stock api t d = Return (Some r) -> 0 <= score r <= 8.
Proof.
  intros H. apply score_stock_inv in H.
  destruct H as (fm & ms & li & ls & m & mos & _ & _ & _ & _ & ->).
  exact (total_bounds fm mos Rules.order).
Qed.

(** The bound is reached: the ticker for which every rule holds scores 8. *)
Lemma C2_score_range_reached :
  score (Rules.result Rules.order "GOOD" Sample.strong (Some 1%float)) = 8 /\
  0 <= score (Rules.result Rules.order "GOOD" Sample.strong (Some 1%float))
    <= 8.
Proof.
  split; [reflexivity|].
  apply (C2_score_range Sample.api "GOOD" Sample.today).
  vm_compute. reflexivity.
Defined.

(** C10: the score is the number of reasons, plus one when the
    margin-of-safety rule triggered (one reason, two points); so it lies
    between the number of reasons and that number plus one. *)
Theorem C10_score_counts_reasons
    (api : Api) (t d : string) (r : ScoreResult) :
  score_stock api t d = Return (Some r) ->
  score r =
    Z.of_nat (List.length (reasons r))
    + match margin_of_safety r with
      | Some v => if Py.gt v 0.3 then 1 else 0
      | None => 0
      end
  /\ Z.of_nat (List.length (reasons r)) <= score r
       <= Z.of_nat (List.length (reasons r)) + 1.
Proof.
  intros H. apply score_stock_inv in H.
  destruct H as (fm & ms & li & ls & m & mos & _ & _ & _ & _ & ->).
  cbn [score reasons margin_of_safety Rules.result].
  rewrite total_order, texts_length, mos_triggered.
  destruct mos as [v|]; [destruct (Py.gt v 0.3)|]; lia.
Qed.

Lemma C10_score_counts_reasons_sample :
  let r := Rules.result Rules.order "GOOD" Sample.strong (Some 1%float) in
  score r = 8 /\ List.length (reasons r) = 7%nat /\
  Z.of_nat (List.length (reasons r)) <= score r
    <= Z.of_nat (List.length (reasons r)) + 1.
Proof.
  split; [reflexivity|]. split; [reflexivity|].
  apply (C10_score_counts_reasons Sample.api "GOOD" Sample.today).
  vm_compute. reflexivity.
Defined.

(** C7: the reasons of a result are the reasons of the triggered rules
    in the fixed order P/E, P/B, Debt/Assets, Current ratio, Margin of
    safety, Revenue growth, Earnings growth; each is the rule's label,
    the value it read with one decimal (P/E, P/B), two decimals
    (Debt/Assets, Current ratio) or as a whole-number percentage (the
    other three), and the rule's threshold. *)
Theorem C7_reasons_order_and_format
    (api : Api) (t d : string) (fm : FinancialMetrics)
    (ms : list FinancialMetrics) (r : ScoreResult) :
  get_financial_metrics api t d "annual" 1 = Return (fm :: ms) ->
  score_stock api t d = Return (Some r) ->
  reasons r =
    map (fun rule => Rules.text rule fm (margin_of_safety r))
      (filter (fun rule => Rules.triggered rule fm (margin_of_safety r))
         [Rules.PE; Rules.PB; Rules.DebtAssets; Rules.CurrentRatio;
          Rules.MarginOfSafety; Rules.RevenueGrowth; Rules.EarningsGrowth])
  /\ forall rule,
       Rules.triggered rule fm (margin_of_safety r) = true ->
       exists v,
         Rules.input rule fm (margin_of_safety r) = Some v /\
         Rules.text rule fm (margin_of_safety r) =
           Rules.label rule ++ Rules.number rule v ++ Rules.tail rule /\
         Rules.well_formed rule (Rules.number rule v).
Proof.
  intros Hm H. apply score_stock_inv in H.
  destruct H as (fm' & ms' & li & ls & m & mos & Hm' & _ & _ & _ & ->).
  rewrite Hm in Hm'. injection Hm' as <- <-.
  cbn [reasons margin_of_safety Rules.result]. split.
  - apply texts_fired.
  - apply text_parts.
Qed.

Lemma C7_reasons_order_and_format_sample :
  reasons (Rules.result Rules.order "B" Sample.three None)
  = ["P/E 9.0 < 15"; "P/B 1.0 < 1.5"; "Current ratio 3.00 > 1.5"].
Proof.
  assert (H : score_stock Sample.api "B" Sample.today =
              Return (Some (Rules.result Rules.order "B" Sample.three None)))
    by (vm_compute; reflexivity).
  rewrite (proj1 (C7_reasons_order_and_format Sample.api "B" Sample.today
                    Sample.three [] _ eq_refl H)).
  vm_compute. reflexivity.
Defined.

(** ** Rules whose input is missing *)

Section MissingInput.

Variables (api : Api) (t d : string).
Variables (fm : FinancialMetrics) (ms : list FinancialMetrics).
Variables (li : LineItem) (ls : list LineItem) (m : float).

Hypothesis fetched_metrics :
  get_financial_metrics api t d "annual" 1 = Return (fm :: ms).
Hypothesis fetched_items :
  search_line_items api t DEFAULT_LINE_ITEMS d "annual" 1 = Return (li :: ls).
Hypothesis fetched_cap : get_market_cap api t d = Return (Some m).

Lemma score_stock_complete :
  score_stock api t d =
  mos <- compute_margin_of_safety li (Some m) ;;
  Return (Some (Rules.result Rules.order t fm mos)).
Proof.
  exact (score_stock_fetched api t d _ _ _
           fetched_metrics fetched_items fetched_cap).
Qed.

(** A rule with a missing input does not trigger, whatever margin of
    safety was computed. *)
Lemma missing_not_triggered (rule : Rules.rule) (mos : option float) :
  compute_margin_of_safety li (Some m) = Return mos ->
  Rules.missing rule fm li (Some m) = true ->
  Rules.triggered rule fm mos = false.
Proof.
  intros Hx M. destruct rule; cbn [Rules.missing] in M;
    try (apply skipped_not_triggered; exact M).
  assert (E : compute_margin_of_safety li (Some m) = Return None).
  { apply margin_absent.
    destruct (Py.truthy_opt (earnings_per_share li)); [|now left].
    destruct (Py.truthy_opt (book_value_per_share li)); [|now right; left].
    destruct (Py.truthy_opt (outstanding_shares li));
      [|now right; right; left].
    destruct (Py.truthy_opt (Some m)) eqn:T; [discriminate|].
    now right; right; right; left. }
  rewrite E in Hx. injection Hx as <-. reflexivity.
Qed.

(** A non-positive market capitalisation gives no margin of safety, and
    the result is that of the six metric rules. *)
Lemma score_stock_nonpositive_cap :
  (m =? 0)%float = true \/ (m <? 0)%float = true ->
  score_stock api t d =
  Return (Some (Rules.result Rules.metric_rules t fm None)).
Proof.
  intros Hn. rewrite score_stock_complete.
  assert (G : Py.gt m 0 = false)
    by (destruct Hn; [apply zero_not_gt|apply lt_zero_not_gt]; assumption).
  rewrite margin_absent by (do 4 right; exists m; auto).
  reflexivity.
Qed.

End MissingInput.

(** C8: a rule whose required input is absent or zero adds no points and
    no reason: it does not trigger, and the score and the reasons are
    those of the other rules alone. *)
Theorem C8_missing_input_skips_rule
    (api : Api) (t d : string)
    (fm : FinancialMetrics) (ms : list FinancialMetrics)
    (li : LineItem) (ls : list LineItem) (m : float)
    (r : ScoreResult) (rule : Rules.rule) :
  get_financial_metrics api t d "annual" 1 = Return (fm :: ms) ->
  search_line_items api t DEFAULT_LINE_ITEMS d "annual" 1
    = Return (li :: ls) ->
  get_market_cap api t d = Return (Some m) ->
  score_stock api t d = Return (Some r) ->
  Rules.missing rule fm li (Some m) = true ->
  Rules.triggered rule fm (margin_of_safety r) = false /\
  score r =
    Rules.total (Rules.without rule Rules.order) fm (margin_of_safety r) /\
  reasons r =
    Rules.texts (Rules.without rule Rules.order) fm (margin_of_safety r).
Proof.
  intros Hm Hl Hc H M.
  rewrite (score_stock_complete api t d fm ms li ls m Hm Hl Hc) in H.
  destruct (compute_margin_of_safety li (Some m)) as [mos|e] eqn:Hx;
    [|discriminate].
  injection H as <-. cbn [score reasons margin_of_safety Rules.result].
  pose proof (missing_not_triggered fm li m rule mos Hx M) as T.
  split; [exact T|]. unfold Rules.total.
  rewrite !texts_fired, <- (without_not_triggered fm mos rule Rules.order T).
  split; reflexivity.
Qed.

(** The example of the claim: a debt-to-assets ratio of 0 is below 0.5,
    and adds nothing; only the P/E rule scores. *)
Lemma C8_missing_input_skips_rule_zero_debt :
  let fm := Sample.metrics (Some 10%float) None (Some 0%float) None None None in
  let r := Rules.result Rules.order "NODEBT" fm None in
  (0 <? 0.5)%float = true /\
  score r = 1 /\ reasons r = ["P/E 10.0 < 15"] /\
  Rules.triggered Rules.DebtAssets fm (margin_of_safety r) = false.
Proof.
  intros fm r. split; [reflexivity|].
  assert (H : score_stock Sample.api "NODEBT" Sample.today = Return (Some r))
    by (vm_compute; reflexivity).
  destruct (C8_missing_input_skips_rule Sample.api "NODEBT" Sample.today
              fm [] Sample.bare [] 100%float r Rules.DebtAssets
              eq_refl eq_refl eq_refl H eq_refl) as (T & S & R).
  split; [rewrite S; reflexivity|].
  split; [rewrite R; vm_compute; reflexivity|exact T].
Defined.

(** C9: a ticker whose market capitalisation is present but zero or
    negative is not skipped: its result has no margin of safety, the six
    metric rules give its score (at most 6) and reasons, and it is in
    the screener's output. *)
Theorem C9_nonpositive_cap_is_scored
    (api : Api) (t d : string)
    (fm : FinancialMetrics) (ms : list FinancialMetrics)
    (li : LineItem) (ls : list LineItem) (m : float) :
  get_financial_metrics api t d "annual" 1 = Return (fm :: ms) ->
  search_line_items api t DEFAULT_LINE_ITEMS d "annual" 1
    = Return (li :: ls) ->
  get_market_cap api t d = Return (Some m) ->
  (m =? 0)%float = true \/ (m <? 0)%float = true ->
  let r :=
    {| ticker := t;
       score := Rules.total Rules.metric_rules fm None;
       margin_of_safety := None;
       reasons := Rules.texts Rules.metric_rules fm None |} in
  score_stock api t d = Return (Some r) /\
  0 <= score r <= 6 /\
  screen_stocks api [t] d = Return [r].
Proof.
  intros Hm Hl Hc Hn r.
  pose proof (score_stock_nonpositive_cap api t d fm ms li ls m
                Hm Hl Hc Hn) as H.
  fold r in H. split; [exact H|]. split.
  - exact (total_bounds fm None Rules.metric_rules).
  - unfold screen_stocks. cbn [collect]. rewrite H. reflexivity.
Qed.

(** With every metric rule holding, such a ticker scores 6. *)
Lemma C9_nonpositive_cap_is_scored_six :
  exists r,
    screen_stocks Sample.api ["NEGCAP"] Sample.today = Return [r] /\
    score r = 6 /\ margin_of_safety r = None.
Proof.
  destruct (C9_nonpositive_cap_is_scored Sample.api "NEGCAP" Sample.today
              Sample.strong [] Sample.graham [] (-5)%float
              eq_refl eq_refl eq_refl (or_intror eq_refl)) as (_ & _ & S).
  eexists. split; [exact S|]. split; reflexivity.
Defined.

(** ** The stable descending sort *)

Section SortReverseFacts.

Context {A : Type} (key : A -> Z).

(** [a] may stand before [b]: its key is not smaller. *)
Let before (a b : A) : Prop := key b <= key a.

(** The elements of key [s]. *)
Let of_key (s : Z) (l : list A) : list A :=
  filter (fun a => key a =? s) l.

Lemma filter_none (f : A -> bool) (l : list A) :
  Forall (fun a => f a = false) l -> filter f l = [].
Proof.
  induction 1 as [|a l H _ IH]; cbn [filter]; [reflexivity|].
  now rewrite H.
Qed.

Lemma insert_desc_perm (x : A) (l : list A) :
  Permutation (x :: l) (insert_desc key x l).
Proof.
  induction l as [|y l IH]; cbn [insert_desc]; [reflexivity|].
  destruct (key y <? key x); [reflexivity|].
  rewrite perm_swap. now apply perm_skip.
Qed.

Lemma insert_desc_sorted (x : A) (l : list A) :
  StronglySorted before l -> StronglySorted before (insert_desc key x l).
Proof.
  induction 1 as [|y l S IH F]; cbn [insert_desc].
  - repeat constructor.
  - destruct (key y <? key x) eqn:C.
    + apply Z.ltb_lt in C. constructor; [now constructor|].
      constructor; [unfold before; lia|].
      eapply Forall_impl; [|exact F]. unfold before. intros; lia.
    + apply Z.ltb_ge in C. constructor; [exact IH|].
      eapply Permutation_Forall; [apply insert_desc_perm|].
      constructor; [exact C|exact F].
Qed.

(** A new element goes behind the elements of its key that are there. *)
Lemma insert_desc_of_key (s : Z) (x : A) (l : list A) :
  StronglySorted before l ->
  of_key s (insert_desc key x l) = (of_key s l ++ of_key s [x])%list.
Proof.
  unfold of_key.
  induction 1 as [|y l S IH F]; cbn [insert_desc]; [reflexivity|].
  destruct (key y <? key x) eqn:C.
  - apply Z.ltb_lt in C. cbn [filter app].
    destruct (key x =? s) eqn:X; [|now rewrite app_nil_r].
    apply Z.eqb_eq in X.
    replace (key y =? s) with false by (symmetry; apply Z.eqb_neq; lia).
    replace (filter (fun a => key a =? s) l) with (@nil A); [reflexivity|].
    symmetry. apply filter_none.
    eapply Forall_impl; [|exact F]. unfold before.
    intros z Hz. apply Z.eqb_neq. lia.
  - cbn [filter]. rewrite IH.
    destruct (key y =? s); reflexivity.
Qed.

Lemma fold_insert_spec (l acc : list A) :
  StronglySorted before acc ->
  let out := fold_left (fun acc x => insert_desc key x acc) l acc in
  StronglySorted before out /\
  Permutation (acc ++ l) out /\
  forall s, of_key s out = (of_key s acc ++ of_key s l)%list.
Proof.
  revert acc; induction l as [|x l IH]; intros acc S; cbn [fold_left].
  - rewrite app_nil_r. repeat split; auto.
    intros s. unfold of_key. cbn. now rewrite app_nil_r.
  - destruct (IH _ (insert_desc_sorted x acc S)) as (S' & P & F).
    split; [exact S'|]. split.
    + rewrite <- P. rewrite <- Permutation_middle.
      apply (Permutation_app_tail l (insert_desc_perm x acc)).
    + intros s. rewrite F, (insert_desc_of_key s x acc S).
      unfold of_key. cbn [filter].
      destruct (key x =? s); rewrite <- app_assoc; reflexivity.
Qed.

(** [sort_reverse] orders by descending key, keeps every element, and
    keeps the elements of one key in their order. *)
Lemma sort_reverse_spec (l : list A) :
  StronglySorted (fun a b => key b <= key a) (sort_reverse key l) /\
  Permutation l (sort_reverse key l) /\
  forall s,
    filter (fun a => key a =? s) (sort_reverse key l) =
    filter (fun a => key a =? s) l.
Proof.
  exact (fold_insert_spec l [] (SSorted_nil _)).
Qed.

End SortReverseFacts.

(** ** The screener *)

Section Screener.

Variables (api : Api) (d : string).

(** Scoring the tickers one by one, in order, without an exception. *)
Let scored (ts : list string) (outcomes : list (option ScoreResult)) : Prop :=
  Forall2 (fun t o => score_stock api t d = Return o) ts outcomes.

Lemma collect_acc (ts : list string) (acc : list ScoreResult) :
  collect api d ts acc =
  rs <- collect api d ts [] ;; Return (acc ++ rs)%list.
Proof.
  revert acc; induction ts as [|t ts IH]; intros acc; cbn [collect bind].
  - now rewrite app_nil_r.
  - destruct (score_stock api t d) as [[r|]|e]; cbn [bind]; try reflexivity.
    + rewrite IH, (IH ([] ++ [r])%list).
      destruct (collect api d ts []); cbn [bind app]; [|reflexivity].
      now rewrite <- app_assoc.
    + apply IH.
Qed.

Lemma collect_cons (t : string) (ts : list string) :
  collect api d (t :: ts) [] =
  o <- score_stock api t d ;;
  rs <- collect api d ts [] ;;
  Return (somes [o] ++ rs)%list.
Proof.
  cbn [collect]. destruct (score_stock api t d) as [[r|]|e]; cbn [bind].
  - apply collect_acc.
  - destruct (collect api d ts []); reflexivity.
  - reflexivity.
Qed.

(** The loop returns exactly when every ticker is scored without an
    exception, and then returns the results in the order of the tickers. *)
Lemma collect_scored (ts : list string) (rs : list ScoreResult) :
  collect api d ts [] = Return rs <->
  exists outcomes, scored ts outcomes /\ rs = somes outcomes.
Proof.
  revert rs; induction ts as [|t ts IH]; intros rs.
  - cbn [collect]. split.
    + intros H. injection H as <-. exists []. split; constructor.
    + intros (o & S & ->). inversion S. reflexivity.
  - rewrite collect_cons. split.
    + destruct (score_stock api t d) as [o|e] eqn:E; [|discriminate].
      cbn [bind].
      destruct (collect api d ts []) as [rs'|e] eqn:C; [|discriminate].
      cbn [bind]. intros H. injection H as <-.
      destruct (proj1 (IH rs') eq_refl) as (os & S & ->).
      exists (o :: os). split; [constructor; assumption|].
      destruct o; reflexivity.
    + intros (os & S & ->). inversion S as [|t' o ts' os' E S']; subst.
      rewrite E. cbn [bind].
      rewrite (proj2 (IH (somes os')))
        by (exists os'; split; [exact S'|reflexivity]).
      cbn [bind]. destruct o; reflexivity.
Qed.

(** A ticker that gives no result can be dropped from the list. *)
Lemma collect_skip (t : string) (l1 l2 : list string) :
  score_stock api t d = Return None ->
  collect api d (l1 ++ t :: l2) [] = collect api d (l1 ++ l2) [].
Proof.
  intros N. induction l1 as [|t' l1 IH]; cbn [app].
  - cbn [collect]. now rewrite N.
  - rewrite !collect_cons, IH. reflexivity.
Qed.

(** Each result in the output was returned for one of the tickers. *)
Lemma scored_in (ts : list string) (outcomes : list (option ScoreResult))
    (r : ScoreResult) :
  scored ts outcomes -> In r (somes outcomes) ->
  exists t, In t ts /\ score_stock api t d = Return (Some r).
Proof.
  induction 1 as [|t o ts os E S IH]; cbn [somes]; [contradiction|].
  destruct o as [r'|].
  - intros [->|H].
    + exists t. split; [now left|exact E].
    + destruct (IH H) as (t' & I & E'). exists t'. split; [now right|exact E'].
  - intros H. destruct (IH H) as (t' & I & E'). exists t'.
    split; [now right|exact E'].
Qed.

(** When every ticker is scored without an exception, the screener
    returns the sorted results. *)
Lemma screen_stocks_returns (ts : list string)
    (outcomes : list (option ScoreResult)) :
  scored ts outcomes ->
  screen_stocks api ts d = Return (sort_reverse score (somes outcomes)).
Proof.
  intros S. unfold screen_stocks.
  rewrite (proj2 (collect_scored ts (somes outcomes)))
    by (exists outcomes; split; [exact S|reflexivity]).
  reflexivity.
Qed.

Lemma screen_stocks_inv (ts : list string) (rs : list ScoreResult) :
  screen_stocks api ts d = Return rs ->
  exists outcomes,
    scored ts outcomes /\ rs = sort_reverse score (somes outcomes).
Proof.
  unfold screen_stocks.
  destruct (collect api d ts []) as [c|e] eqn:C; [|discriminate].
  cbn [bind]. intros H. injection H as <-.
  apply collect_scored in C. destruct C as (os & S & ->).
  exists os. split; [exact S|reflexivity].
Qed.

End Screener.

(** C5: when the metrics list is empty, the line-items list is empty or
    the market capitalisation is absent, [score_stock] returns [None]
    without an exception; the screener treats the ticker list as if the
    ticker were not in it, and no result in its output is for that
    ticker. *)
Theorem C5_missing_data_skipped
    (api : Api) (t d : string)
    (metrics : list FinancialMetrics) (line_items : list LineItem)
    (market_cap : option float) :
  get_financial_metrics api t d "annual" 1 = Return metrics ->
  search_line_items api t DEFAULT_LINE_ITEMS d "annual" 1
    = Return line_items ->
  get_market_cap api t d = Return market_cap ->
  metrics = [] \/ line_items = [] \/ market_cap = None ->
  score_stock api t d = Return None /\
  (forall l1 l2,
     screen_stocks api (l1 ++ t :: l2) d = screen_stocks api (l1 ++ l2) d) /\
  (forall tickers rs,
     screen_stocks api tickers d = Return rs ->
     forall r, In r rs -> ticker r <> t).
Proof.
  intros Hm Hl Hc Hn.
  assert (N : score_stock api t d = Return None).
  { rewrite (score_stock_fetched api t d _ _ _ Hm Hl Hc).
    destruct Hn as [->|[->| ->]]; [reflexivity| |].
    - destruct metrics; reflexivity.
    - destruct metrics, line_items; reflexivity. }
  split; [exact N|]. split.
  - intros l1 l2. unfold screen_stocks.
    now rewrite (collect_skip api d t l1 l2 N).
  - intros ts rs H r I E.
    apply screen_stocks_inv in H. destruct H as (os & S & ->).
    destruct (sort_reverse_spec score (somes os)) as (_ & P & _).
    apply (Permutation_in _ (Permutation_sym P)) in I.
    destruct (scored_in api d ts os r S I) as (t' & _ & E').
    rewrite <- (score_stock_ticker api t' d r E') in E'.
    rewrite E, N in E'. discriminate.
Qed.

(** A ticker with an empty metrics list among others: it gives no entry,
    and the other two are returned. *)
Lemma C5_missing_data_skipped_empty_metrics :
  score_stock Sample.api "EMPTY" Sample.today = Return None /\
  screen_stocks Sample.api ["A"; "EMPTY"; "B"] Sample.today =
  screen_stocks Sample.api ["A"; "B"] Sample.today /\
  option_map (map ticker)
    (match screen_stocks Sample.api ["A"; "EMPTY"; "B"] Sample.today with
     | Return rs => Some rs
     | Raise _ => None
     end) = Some ["B"; "A"].
Proof.
  destruct (C5_missing_data_skipped Sample.api "EMPTY" Sample.today
              [] [Sample.graham] (Some 1500%float)
              eq_refl eq_refl eq_refl (or_introl eq_refl)) as (N & S & _).
  split; [exact N|]. split; [exact (S ["A"] ["B"])|].
  vm_compute. reflexivity.
Defined.

(** C6: the list returned by [screen_stocks] is in descending order of
    score, holds exactly the results of the tickers that gave one, and
    the results of any one score are in the order of their tickers in
    the input. *)
Theorem C6_sorted_stable
    (api : Api) (tickers : list string) (d : string)
    (rs : list ScoreResult) :
  screen_stocks api tickers d = Return rs ->
  exists outcomes,
    Forall2 (fun t o => score_stock api t d = Return o) tickers outcomes /\
    StronglySorted (fun a b => score b <= score a) rs /\
    Permutation (somes outcomes) rs /\
    forall s,
      filter (fun r => score r =? s) rs =
      filter (fun r => score r =? s) (somes outcomes).
Proof.
  intros H. apply screen_stocks_inv in H. destruct H as (os & S & ->).
  exists os. split; [exact S|]. apply sort_reverse_spec.
Qed.

(** Two tickers of score 1 around one of score 3: the higher score comes
    first, and the two equal scores keep their input order. *)
Lemma C6_sorted_stable_equal_scores :
  exists rs,
    screen_stocks Sample.api ["A"; "EMPTY"; "B"; "C"] Sample.today
      = Return rs /\
    map (fun r => (ticker r, score r)) rs = [("B", 3); ("A", 1); ("C", 1)] /\
    StronglySorted (fun a b => score b <= score a) rs.
Proof.
  eexists. split; [vm_compute; reflexivity|].
  split; [vm_compute; reflexivity|].
  destruct (C6_sorted_stable Sample.api ["A"; "EMPTY"; "B"; "C"]
              Sample.today _ eq_refl) as (os & _ & S & _).
  exact S.
Defined.

(** ** Splitting and stripping *)

Section Strings.

Lemma rstrip_idempotent (s : string) : Str.rstrip (Str.rstrip s) = Str.rstrip s.
Proof.
  induction s as [|c s IH]; [reflexivity|]. cbn [Str.rstrip].
  destruct (Str.rstrip s) as [|a r] eqn:E.
  - destruct (Str.isspace c) eqn:W; cbn [Str.rstrip]; [reflexivity|].
    now rewrite W.
  - cbn [Str.rstrip] in *. now rewrite IH.
Qed.

Lemma rstrip_head (c : ascii) (s : string) :
  Str.isspace c = false -> exists r, Str.rstrip (String c s) = String c r.
Proof.
  intros W. cbn [Str.rstrip]. rewrite W.
  destruct (Str.rstrip s); eexists; reflexivity.
Qed.

Lemma lstrip_head (s : string) :
  Str.lstrip s = "" \/
  exists c r, Str.lstrip s = String c r /\ Str.isspace c = false.
Proof.
  induction s as [|c s IH]; [now left|]. cbn [Str.lstrip].
  destruct (Str.isspace c) eqn:W; [exact IH|].
  right. exists c, s. auto.
Qed.

Lemma strip_idempotent (s : string) : Str.strip (Str.strip s) = Str.strip s.
Proof.
  unfold Str.strip.
  destruct (lstrip_head s) as [E|(c & r & E & W)]; rewrite E; [reflexivity|].
  destruct (rstrip_head c r W) as (r' & E').
  rewrite E'. cbn [Str.lstrip]. rewrite W, <- E'.
  apply rstrip_idempotent.
Qed.

Lemma has_lstrip (c : ascii) (s : string) :
  Str.has c s = false -> Str.has c (Str.lstrip s) = false.
Proof.
  induction s as [|a s IH]; [auto|]. cbn [Str.lstrip].
  destruct (Str.isspace a); [|auto].
  cbn [Str.has]. intros H. apply orb_false_iff in H. now apply IH.
Qed.

Lemma has_rstrip (c : ascii) (s : string) :
  Str.has c s = false -> Str.has c (Str.rstrip s) = false.
Proof.
  induction s as [|a s IH]; [auto|]. cbn [Str.rstrip Str.has].
  intros H. apply orb_false_iff in H. destruct H as [Ha Hs].
  specialize (IH Hs).
  destruct (Str.rstrip s) as [|b r].
  - destruct (Str.isspace a); cbn [Str.has]; [reflexivity|].
    now rewrite Ha.
  - cbn [Str.has] in *. now rewrite Ha, IH.
Qed.

Lemma has_strip (c : ascii) (s : string) :
  Str.has c s = false -> Str.has c (Str.strip s) = false.
Proof. intros H. apply has_rstrip, has_lstrip, H. Qed.

Lemma split_nonempty (sep : ascii) (s : string) : Str.split sep s <> [].
Proof.
  destruct s as [|c s]; cbn [Str.split]; [discriminate|].
  destruct (Ascii.eqb c sep); [discriminate|].
  destruct (Str.split sep s); discriminate.
Qed.

(** No piece of a split holds the separator. *)
Lemma split_pieces (sep : ascii) (s : string) :
  Forall (fun p => Str.has sep p = false) (Str.split sep s).
Proof.
  induction s as [|c s IH]; cbn [Str.split].
  - repeat constructor.
  - destruct (Ascii.eqb c sep) eqn:E.
    + constructor; [reflexivity|exact IH].
    + destruct (Str.split sep s) as [|p ps]; [repeat constructor|].
      * cbn [Str.has]. now rewrite E.
      * inversion IH as [|? ? Hp Hps]; subst.
        constructor; [|exact Hps]. cbn [Str.has]. now rewrite E, Hp.
Qed.

Lemma split_whole (sep : ascii) (x : string) :
  Str.has sep x = false -> Str.split sep x = [x].
Proof.
  induction x as [|c x IH]; [reflexivity|]. cbn [Str.has Str.split].
  intros H. apply orb_false_iff in H. destruct H as [Hc Hx].
  now rewrite Hc, (IH Hx).
Qed.

Lemma split_append (sep : ascii) (x rest : string) :
  Str.has sep x = false ->
  Str.split sep (x ++ String sep rest) = x :: Str.split sep rest.
Proof.
  induction x as [|c x IH]; cbn [Str.has Str.split append].
  - intros _. now rewrite Ascii.eqb_refl.
  - intros H. apply orb_false_iff in H. destruct H as [Hc Hx].
    now rewrite Hc, (IH Hx).
Qed.

(** Splitting a joined list gives the list back, when no element holds
    the separator. *)
Lemma split_join (sep : ascii) (l : list string) :
  l <> [] ->
  Forall (fun p => Str.has sep p = false) l ->
  Str.split sep (Str.join (String sep "") l) = l.
Proof.
  induction l as [|x l IH]; [congruence|]. intros _ F.
  inversion F as [|? ? Hx Hl]; subst.
  destruct l as [|y l].
  - cbn [Str.join]. now apply split_whole.
  - change (Str.join (String sep "") (x :: y :: l))
      with (x ++ String sep (Str.join (String sep "") (y :: l))).
    rewrite (split_append sep x _ Hx), IH; [reflexivity|discriminate|exact Hl].
Qed.

Lemma spaces_length (n : nat) : String.length (Str.spaces n) = n.
Proof. induction n as [|n IH]; cbn; congruence. Qed.

End Strings.


(** * Further properties *)

(** ** [compute_margin_of_safety] *)

(** An absent or zero eps, bvps or share count, an absent or zero market
    capitalisation, or one that is not positive, gives [None]; no
    exception is raised. *)
Theorem margin_unusable_input (li : LineItem) (mc : option float) :
  Py.truthy_opt (earnings_per_share li) = false \/
  Py.truthy_opt (book_value_per_share li) = false \/
  Py.truthy_opt (outstanding_shares li) = false \/
  Py.truthy_opt mc = false \/
  (exists m, mc = Some m /\ Py.gt m 0 = false) ->
  compute_margin_of_safety li mc = Return None.
Proof. exact (margin_absent li mc). Qed.

Lemma margin_unusable_input_zero_shares :
  compute_margin_of_safety
    (Sample.items (Some 2) (Some 20) (Some (-0)))%float (Some 1500%float)
  = Return None.
Proof.
  apply margin_unusable_input. right; right; left. reflexivity.
Defined.

(** A value is returned only when the three line items and the market
    capitalisation are present and nonzero, the market capitalisation
    and the price are positive and the product is not negative; the
    value is then Graham's margin. *)
Theorem margin_value_preconditions
    (li : LineItem) (mc : option float) (v : float) :
  compute_margin_of_safety li mc = Return (Some v) ->
  exists eps bvps shares m,
    earnings_per_share li = Some eps /\
    book_value_per_share li = Some bvps /\
    outstanding_shares li = Some shares /\
    mc = Some m /\
    Py.truthy eps = true /\ Py.truthy bvps = true /\
    Py.truthy shares = true /\ Py.gt m 0 = true /\
    (22.5 * eps * bvps <? 0)%float = false /\
    Py.gt (m / shares) 0 = true /\
    v = ((PrimFloat.sqrt (22.5 * eps * bvps) - m / shares)
         / (m / shares))%float.
Proof.
  intros H. apply margin_some_inv in H.
  destruct H as (eps & bvps & shares & m & He & Hb & Hs & Hm & G & N & P & ->).
  exists eps, bvps, shares, m. unfold guard in G.
  repeat (apply andb_prop in G; destruct G as [G ?]).
  repeat split; auto.
Qed.

Lemma margin_value_preconditions_example :
  exists eps bvps shares m,
    earnings_per_share Sample.graham = Some eps /\
    book_value_per_share Sample.graham = Some bvps /\
    outstanding_shares Sample.graham = Some shares /\
    Some 1500%float = Some m /\
    Py.truthy eps = true /\ Py.truthy bvps = true /\
    Py.truthy shares = true /\ Py.gt m 0 = true /\
    (22.5 * eps * bvps <? 0)%float = false /\
    Py.gt (m / shares) 0 = true /\
    1%float = ((PrimFloat.sqrt (22.5 * eps * bvps) - m / shares)
               / (m / shares))%float.
Proof.
  apply (margin_value_preconditions Sample.graham (Some 1500%float) 1).
  vm_compute. reflexivity.
Defined.

(** The only exception of [compute_margin_of_safety] is the [ValueError]
    of the square root, raised exactly when everything is present and
    nonzero, the market capitalisation is positive and the product
    22.5 * eps * bvps is negative; neither division divides by zero. *)
Theorem margin_raises_iff (li : LineItem) (mc : option float) (e : exn) :
  compute_margin_of_safety li mc = Raise e <->
  e = ValueError "math domain error" /\
  exists eps bvps shares m,
    earnings_per_share li = Some eps /\
    book_value_per_share li = Some bvps /\
    outstanding_shares li = Some shares /\
    mc = Some m /\
    guard eps bvps shares m = true /\
    (22.5 * eps * bvps <? 0)%float = true.
Proof.
  rewrite margin_cases. split.
  - destruct (earnings_per_share li) as [eps|]; [|discriminate].
    destruct (book_value_per_share li) as [bvps|]; [|discriminate].
    destruct (outstanding_shares li) as [shares|]; [|discriminate].
    destruct mc as [m|]; [|discriminate].
    destruct (guard eps bvps shares m) eqn:G; [|discriminate].
    destruct (22.5 * eps * bvps <? 0)%float eqn:N.
    + intros H. injection H as <-. split; [reflexivity|].
      exists eps, bvps, shares, m. auto 7.
    + destruct (Py.gt (m / shares) 0); discriminate.
  - intros (-> & eps & bvps & shares & m & -> & -> & -> & -> & G & N).
    now rewrite G, N.
Qed.

(** With everything present and nonzero, a positive market
    capitalisation and a product that is not negative, a price that is
    not positive gives [None]. *)
Theorem margin_nonpositive_price
    (li : LineItem) (eps bvps shares m : float) :
  earnings_per_share li = Some eps ->
  book_value_per_share li = Some bvps ->
  outstanding_shares li = Some shares ->
  guard eps bvps shares m = true ->
  (22.5 * eps * bvps <? 0)%float = false ->
  Py.gt (m / shares) 0 = false ->
  compute_margin_of_safety li (Some m) = Return None.
Proof.
  intros He Hb Hs G N P. now rewrite margin_cases, He, Hb, Hs, G, N, P.
Qed.

Lemma margin_nonpositive_price_negative_shares :
  compute_margin_of_safety
    (Sample.items (Some 1) (Some 1) (Some (-1)))%float (Some 1%float)
  = Return None.
Proof.
  apply (margin_nonpositive_price _ 1 1 (-1) 1); reflexivity.
Defined.

(** ** [score_stock] *)

(** [score_stock] raises exactly when one of the three fetches raises (in
    the order metrics, line items, market capitalisation, each after the
    earlier ones returned), or when all the data is there and
    [compute_margin_of_safety] raises. *)
Theorem score_stock_raises_iff (api : Api) (t d : string) (e : exn) :
  score_stock api t d = Raise e <->
  get_financial_metrics api t d "annual" 1 = Raise e \/
  (exists ms,
     get_financial_metrics api t d "annual" 1 = Return ms /\
     search_line_items api t DEFAULT_LINE_ITEMS d "annual" 1 = Raise e) \/
  (exists ms ls,
     get_financial_metrics api t d "annual" 1 = Return ms /\
     search_line_items api t DEFAULT_LINE_ITEMS d "annual" 1 = Return ls /\
     get_market_cap api t d = Raise e) \/
  (exists fm ms li ls m,
     get_financial_metrics api t d "annual" 1 = Return (fm :: ms) /\
     search_line_items api t DEFAULT_LINE_ITEMS d "annual" 1
       = Return (li :: ls) /\
     get_market_cap api t d = Return (Some m) /\
     compute_margin_of_safety li (Some m) = Raise e).
Proof.
  destruct (get_financial_metrics api t d "annual" 1) as [ms|e1] eqn:Hm.
  2:{ unfold score_stock. rewrite Hm. cbn [bind]. split.
      - intros H. left. congruence.
      - intros [H|[(? & H & _)|[(? & ? & H & _)|(? & ? & ? & ? & ? & H & _)]]];
          congruence. }
  destruct (search_line_items api t DEFAULT_LINE_ITEMS d "annual" 1)
    as [ls|e2] eqn:Hl.
  2:{ unfold score_stock. rewrite Hm, Hl. cbn [bind]. split.
      - intros H. right; left. exists ms. split; congruence.
      - intros [H|[(? & _ & H)|[(? & ? & _ & H & _)
                   |(? & ? & ? & ? & ? & _ & H & _)]]];
          congruence. }
  destruct (get_market_cap api t d) as [mc|e3] eqn:Hc.
  2:{ unfold score_stock. rewrite Hm, Hl, Hc. cbn [bind]. split.
      - intros H. right; right; left. exists ms, ls.
        repeat split; congruence.
      - intros [H|[(? & _ & H)|[(? & ? & _ & _ & H)
                   |(? & ? & ? & ? & ? & _ & _ & H & _)]]];
          congruence. }
  rewrite (score_stock_fetched api t d ms ls mc Hm Hl Hc). split.
  - destruct ms as [|fm ms]; [discriminate|].
    destruct ls as [|li ls]; [destruct mc; discriminate|].
    destruct mc as [m|]; [|discriminate].
    destruct (compute_margin_of_safety li (Some m)) as [mos|e4] eqn:Hx;
      [discriminate|].
    cbn [bind]. intros H. do 3 right. exists fm, ms, li, ls, m.
    repeat split; congruence.
  - intros [H|[(? & _ & H)|[(? & ? & _ & _ & H)
               |(fm & ms' & li & ls' & m & H1 & H2 & H3 & Hx)]]];
      try discriminate.
    injection H1 as ->. injection H2 as ->. injection H3 as ->.
    now rewrite Hx.
Qed.

(** A failing first fetch is what [score_stock] raises. *)
Lemma score_stock_raises_iff_api_down :
  score_stock Stub.failing "DOWN" Sample.today = Raise (ApiError "timeout").
Proof.
  apply score_stock_raises_iff. left. reflexivity.
Defined.

Lemma nan_not_lt (v c : float) : is_nan v = true -> (v <? c)%float = false.
Proof.
  intros H. apply is_nan_SF in H. rewrite ltb_spec, H. reflexivity.
Qed.

Lemma nan_not_gt (v c : float) : is_nan v = true -> Py.gt v c = false.
Proof.
  intros H. apply is_nan_SF in H. unfold Py.gt. rewrite ltb_spec, H.
  unfold SFltb. destruct (Prim2SF c) as [?|?| |? ? ?]; reflexivity.
Qed.

(** A metric or margin of safety that is [nan] triggers no rule: the
    score and the reasons are those of the other rules. *)
Theorem nan_triggers_nothing
    (api : Api) (t d : string) (fm : FinancialMetrics)
    (ms : list FinancialMetrics) (r : ScoreResult)
    (rule : Rules.rule) (v : float) :
  get_financial_metrics api t d "annual" 1 = Return (fm :: ms) ->
  score_stock api t d = Return (Some r) ->
  Rules.input rule fm (margin_of_safety r) = Some v ->
  is_nan v = true ->
  score r =
    Rules.total (Rules.without rule Rules.order) fm (margin_of_safety r) /\
  reasons r =
    Rules.texts (Rules.without rule Rules.order) fm (margin_of_safety r).
Proof.
  intros Hm H I N. apply score_stock_inv in H.
  destruct H as (fm' & ms' & li & ls & m & mos & Hm' & _ & _ & _ & ->).
  rewrite Hm in Hm'. injection Hm' as <- <-.
  cbn [score reasons margin_of_safety Rules.result] in *.
  assert (T : Rules.triggered rule fm mos = false).
  { unfold Rules.triggered. rewrite I.
    destruct rule; cbn [Rules.threshold];
      rewrite ?(nan_not_lt v _ N), ?(nan_not_gt v _ N);
      apply andb_false_r. }
  unfold Rules.total.
  rewrite !texts_fired, <- (without_not_triggered fm mos rule Rules.order T).
  split; reflexivity.
Qed.

(** A P/E of [nan] beside a P/B of 1: only the P/B rule scores. *)
Lemma nan_triggers_nothing_sample :
  let fm := Sample.metrics (Some nan) (Some 1%float) None None None None in
  let r := Rules.result Rules.order "X" fm None in
  score r = 1 /\ reasons r = ["P/B 1.0 < 1.5"].
Proof.
  intros fm r.
  assert (H : score_stock (Stub.constant fm Sample.bare (Some 100%float))
                "X" Sample.today = Return (Some r))
    by (vm_compute; reflexivity).
  destruct (nan_triggers_nothing
              (Stub.constant fm Sample.bare (Some 100%float))
              "X" Sample.today fm [] r Rules.PE nan
              eq_refl H eq_refl eq_refl) as (S & R).
  split; [rewrite S; reflexivity|rewrite R; vm_compute; reflexivity].
Defined.

(** A result has score 0 exactly when it has no reasons. *)
Theorem score_zero_iff_no_reasons
    (api : Api) (t d : string) (r : ScoreResult) :
  score_stock api t d = Return (Some r) ->
  (score r = 0 <-> reasons r = []).
Proof.
  intros H. apply score_stock_inv in H.
  destruct H as (fm & ms & li & ls & m & mos & _ & _ & _ & _ & ->).
  cbn [score reasons Rules.result].
  rewrite total_order. pose proof (texts_length fm mos Rules.order) as L.
  split.
  - intros Z0. apply length_zero_iff_nil. rewrite L.
    destruct (Rules.triggered Rules.MarginOfSafety fm mos); lia.
  - intros E. rewrite E in L. cbn [List.length] in L. rewrite <- L.
    destruct (Rules.triggered Rules.MarginOfSafety fm mos) eqn:T;
      [|reflexivity].
    exfalso. symmetry in L. apply length_zero_iff_nil in L.
    assert (I : In Rules.MarginOfSafety (Rules.fired Rules.order fm mos)).
    { apply filter_In. split; [|exact T]. cbn. auto 8. }
    rewrite L in I. exact I.
Qed.

Lemma score_zero_iff_no_reasons_sample :
  let r := Rules.result Rules.order "X"
             (Sample.metrics (Some 20%float) None None None None None) None in
  score r = 0 <-> reasons r = [].
Proof.
  intros r.
  apply (score_zero_iff_no_reasons
           (Stub.constant
              (Sample.metrics (Some 20%float) None None None None None)
              Sample.bare (Some 100%float)) "X" Sample.today).
  vm_compute. reflexivity.
Defined.

(** ** [screen_stocks] *)

Section StableOrder.

Context {A : Type} (key : A -> Z).

(** Two lists in descending order of key that agree on the elements of
    every key, in their order, are the same list. *)
Lemma sorted_stable_unique (l1 l2 : list A) :
  StronglySorted (fun a b => key b <= key a) l1 ->
  StronglySorted (fun a b => key b <= key a) l2 ->
  (forall s, filter (fun a => key a =? s) l1
             = filter (fun a => key a =? s) l2) ->
  l1 = l2.
Proof.
  intros S1; revert l2; induction S1 as [|a l1 S1 IH F1]; intros l2 S2 E.
  - destruct l2 as [|b l2]; [reflexivity|].
    specialize (E (key b)). cbn [filter] in E.
    rewrite Z.eqb_refl in E. discriminate.
  - destruct S2 as [|b l2 S2 F2].
    { specialize (E (key a)). cbn [filter] in E.
      rewrite Z.eqb_refl in E. discriminate. }
    assert (Hab : key a <= key b).
    { assert (I : In a (b :: l2)).
      { apply (proj1 (filter_In (fun x => key x =? key a) a (b :: l2))).
        rewrite <- E. cbn [filter]. rewrite Z.eqb_refl. now left. }
      destruct I as [->|I]; [lia|].
      rewrite Forall_forall in F2. exact (F2 a I). }
    assert (Hba : key b <= key a).
    { assert (I : In b (a :: l1)).
      { apply (proj1 (filter_In (fun x => key x =? key b) b (a :: l1))).
        rewrite E. cbn [filter]. rewrite Z.eqb_refl. now left. }
      destruct I as [->|I]; [lia|].
      rewrite Forall_forall in F1. exact (F1 b I). }
    assert (K : key a = key b) by lia.
    pose proof (E (key a)) as E0. cbn [filter] in E0.
    rewrite Z.eqb_refl, <- K, Z.eqb_refl in E0. injection E0 as <- E0.
    f_equal. apply IH; [exact S2|]. intros s.
    destruct (Z.eq_dec s (key a)) as [->|Ns]; [exact E0|].
    specialize (E s). cbn [filter] in E.
    replace (key a =? s) with false in E
      by (symmetry; apply Z.eqb_neq; congruence).
    exact E.
Qed.

End StableOrder.

Section ScreenStocks.

Variables (api : Api) (d : string).

Let scored (ts : list string) (outcomes : list (option ScoreResult)) : Prop :=
  Forall2 (fun t o => score_stock api t d = Return o) ts outcomes.

Lemma collect_raises_iff (ts : list string) (e : exn) :
  collect api d ts [] = Raise e <->
  exists l1 t l2 outcomes,
    ts = (l1 ++ t :: l2)%list /\ scored l1 outcomes /\
    score_stock api t d = Raise e.
Proof.
  induction ts as [|t0 ts IH].
  - cbn [collect]. split; [discriminate|].
    intros (l1 & t & l2 & os & E & _). destruct l1; discriminate.
  - rewrite collect_cons. split.
    + destruct (score_stock api t0 d) as [o|e0] eqn:E0; cbn [bind].
      * destruct (collect api d ts []) as [rs|e1] eqn:C; [discriminate|].
        cbn [bind]. intros H. injection H as ->.
        destruct (proj1 IH eq_refl) as (l1 & t & l2 & os & -> & S & R).
        exists (t0 :: l1), t, l2, (o :: os).
        split; [reflexivity|]. split; [constructor; assumption|exact R].
      * intros H. injection H as ->.
        exists [], t0, ts, []. split; [reflexivity|].
        split; [constructor|exact E0].
    + intros (l1 & t & l2 & os & E & S & R).
      destruct l1 as [|a l1]; cbn [app] in E; injection E as -> ->.
      * now rewrite R.
      * inversion S as [|? o ? os' Ea S']; subst. rewrite Ea. cbn [bind].
        rewrite (proj2 IH) by (exists l1, t, l2, os'; auto).
        reflexivity.
Qed.

Lemma somes_length {B : Type} (os : list (option B)) :
  (List.length (somes os) <= List.length os)%nat.
Proof.
  induction os as [|[b|] os IH]; cbn [somes List.length]; lia.
Qed.

Lemma scored_tickers (ts : list string) (os : list (option ScoreResult)) :
  scored ts os -> Forall (fun r => In (ticker r) ts) (somes os).
Proof.
  intros S. apply Forall_forall. intros r I.
  destruct (scored_in api d ts os r S I) as (t & It & E).
  now rewrite (score_stock_ticker api t d r E).
Qed.

Lemma scored_nodup (ts : list string) (os : list (option ScoreResult)) :
  scored ts os -> NoDup ts -> NoDup (map ticker (somes os)).
Proof.
  induction 1 as [|t o ts os E S IH]; cbn [somes map]; [constructor|].
  intros N. inversion N as [|? ? Nt N']; subst.
  destruct o as [r|]; [|exact (IH N')].
  cbn [map]. constructor; [|exact (IH N')].
  rewrite (score_stock_ticker api t d r E).
  intros I. apply in_map_iff in I. destruct I as (r' & Er & I).
  pose proof (scored_tickers ts os S) as F. rewrite Forall_forall in F.
  apply Nt. rewrite <- Er. exact (F r' I).
Qed.

Lemma screen_stocks_length (ts : list string) (rs : list ScoreResult) :
  screen_stocks api ts d = Return rs ->
  (List.length rs <= List.length ts)%nat.
Proof.
  intros H. apply screen_stocks_inv in H. destruct H as (os & S & ->).
  destruct (sort_reverse_spec score (somes os)) as (_ & P & _).
  rewrite <- (Permutation_length P), (Forall2_length S).
  apply somes_length.
Qed.

End ScreenStocks.

(** [screen_stocks] raises exactly when the scoring of some ticker
    raises after every ticker before it was scored, and it raises that
    ticker's exception: the first failure ends the run. *)
Theorem screen_stocks_raises_iff
    (api : Api) (tickers : list string) (d : string) (e : exn) :
  screen_stocks api tickers d = Raise e <->
  exists l1 t l2 outcomes,
    tickers = (l1 ++ t :: l2)%list /\
    Forall2 (fun t o => score_stock api t d = Return o) l1 outcomes /\
    score_stock api t d = Raise e.
Proof.
  rewrite <- collect_raises_iff. unfold screen_stocks.
  destruct (collect api d tickers []); cbn [bind]; split; congruence.
Qed.

(** One ticker with negative earnings after a good one: the run ends
    with its [ValueError]. *)
Lemma screen_stocks_raises_iff_sample :
  screen_stocks Sample.api ["GOOD"; "LOSS"; "A"] Sample.today
  = Raise (ValueError "math domain error").
Proof.
  apply screen_stocks_raises_iff.
  exists ["GOOD"], "LOSS", ["A"],
    [Some (Rules.result Rules.order "GOOD" Sample.strong (Some 1%float))].
  split; [reflexivity|]. split; [|vm_compute; reflexivity].
  constructor; [vm_compute; reflexivity|constructor].
Defined.

(** When every ticker is scored without an exception, [screen_stocks]
    returns: the results, sorted. *)
Theorem screen_stocks_all_scored
    (api : Api) (tickers : list string) (d : string)
    (outcomes : list (option ScoreResult)) :
  Forall2 (fun t o => score_stock api t d = Return o) tickers outcomes ->
  screen_stocks api tickers d = Return (sort_reverse score (somes outcomes)).
Proof. exact (screen_stocks_returns api d tickers outcomes). Qed.

Lemma screen_stocks_all_scored_sample :
  option_map (map ticker)
    (match screen_stocks Sample.api ["EMPTY"; "C"; "GOOD"] Sample.today with
     | Return rs => Some rs
     | Raise _ => None
     end) = Some ["GOOD"; "C"].
Proof.
  rewrite (screen_stocks_all_scored Sample.api ["EMPTY"; "C"; "GOOD"]
             Sample.today
             [None;
              Some (Rules.result Rules.order "C"
                      (Sample.metrics None (Some 0.8%float) None None None None)
                      None);
              Some (Rules.result Rules.order "GOOD" Sample.strong
                      (Some 1%float))]).
  - vm_compute. reflexivity.
  - repeat constructor; vm_compute; reflexivity.
Defined.

(** Every result of [screen_stocks] carries one of the given tickers,
    there are no more results than tickers, and distinct tickers give
    results with distinct tickers. *)
Theorem screen_stocks_tickers
    (api : Api) (tickers : list string) (d : string)
    (rs : list ScoreResult) :
  screen_stocks api tickers d = Return rs ->
  Forall (fun r => In (ticker r) tickers) rs /\
  (List.length rs <= List.length tickers)%nat /\
  (NoDup tickers -> NoDup (map ticker rs)).
Proof.
  intros H. apply screen_stocks_inv in H. destruct H as (os & S & ->).
  destruct (sort_reverse_spec score (somes os)) as (_ & P & _).
  split; [|split].
  - eapply Permutation_Forall; [exact P|]. exact (scored_tickers api d _ _ S).
  - rewrite <- (Permutation_length P), (Forall2_length S).
    apply somes_length.
  - intros N.
    eapply Permutation_NoDup; [exact (Permutation_map ticker P)|].
    exact (scored_nodup api d _ _ S N).
Qed.

Lemma screen_stocks_tickers_sample :
  exists rs,
    screen_stocks Sample.api ["A"; "EMPTY"; "B"] Sample.today = Return rs /\
    (List.length rs <= 3)%nat /\ NoDup (map ticker rs).
Proof.
  eexists. split; [vm_compute; reflexivity|].
  destruct (screen_stocks_tickers Sample.api ["A"; "EMPTY"; "B"]
              Sample.today _ eq_refl) as (_ & L & N).
  split; [exact L|]. apply N.
  repeat constructor; cbn; intuition discriminate.
Defined.

(** The list returned by [screen_stocks] is the only arrangement of the
    results that is in descending order of score and keeps the results
    of each score in the order of their tickers: the sorting algorithm
    does not matter, as long as it is stable. *)
Theorem screen_stocks_order_unique
    (api : Api) (tickers : list string) (d : string)
    (outcomes : list (option ScoreResult)) (rs l : list ScoreResult) :
  Forall2 (fun t o => score_stock api t d = Return o) tickers outcomes ->
  screen_stocks api tickers d = Return rs ->
  StronglySorted (fun a b => score b <= score a) l ->
  (forall s, filter (fun r => score r =? s) l
             = filter (fun r => score r =? s) (somes outcomes)) ->
  l = rs.
Proof.
  intros S H Sl El.
  rewrite (screen_stocks_returns api d tickers outcomes S) in H.
  injection H as <-.
  destruct (sort_reverse_spec score (somes outcomes)) as (Ss & _ & Es).
  apply (sorted_stable_unique score); [exact Sl|exact Ss|].
  intros s. now rewrite El, Es.
Qed.

Lemma screen_stocks_order_unique_sample :
  let a := Rules.result Rules.order "A"
             (Sample.metrics (Some 12%float) None None None None None) None in
  let b := Rules.result Rules.order "B" Sample.three None in
  let c := Rules.result Rules.order "C"
             (Sample.metrics None (Some 0.8%float) None None None None) None in
  screen_stocks Sample.api ["A"; "B"; "C"] Sample.today = Return [b; a; c].
Proof.
  intros a b c.
  assert (H : exists rs,
             screen_stocks Sample.api ["A"; "B"; "C"] Sample.today = Return rs)
    by (eexists; vm_compute; reflexivity).
  destruct H as (rs & H). rewrite H. f_equal. symmetry.
  apply (screen_stocks_order_unique Sample.api ["A"; "B"; "C"] Sample.today
           [Some a; Some b; Some c] rs [b; a; c]).
  - repeat constructor; vm_compute; reflexivity.
  - exact H.
  - repeat constructor; vm_compute; discriminate.
  - intros s. cbn [filter somes].
    change (score a) with 1. change (score b) with 3. change (score c) with 1.
    destruct (Z.eqb_spec 3 s), (Z.eqb_spec 1 s); congruence.
Defined.

(** ** The tickers of the command line *)

(** Every parsed ticker is not empty, has no white space at either end
    and holds no comma. *)
Theorem parse_tickers_clean (arg t : string) :
  In t (parse_tickers arg) ->
  t <> "" /\ Str.strip t = t /\ Str.has ","%char t = false.
Proof.
  unfold parse_tickers. intros I. apply in_map_iff in I.
  destruct I as (p & <- & I). apply filter_In in I. destruct I as [I T].
  split; [|split].
  - intros E. rewrite E in T. discriminate.
  - apply strip_idempotent.
  - apply has_strip.
    pose proof (split_pieces ","%char arg) as F.
    rewrite Forall_forall in F. exact (F p I).
Qed.

Lemma parse_tickers_clean_sample :
  "MSFT" <> "" /\ Str.strip "MSFT" = "MSFT" /\ Str.has ","%char "MSFT" = false.
Proof.
  apply (parse_tickers_clean " AAPL , MSFT ,, GOOG").
  vm_compute. right; left. reflexivity.
Defined.

Lemma parse_joined (entries : list string) :
  Forall (fun t => Str.has ","%char t = false) entries ->
  parse_tickers (Str.join "," entries) =
  map Str.strip (filter (fun t => Str.truthy (Str.strip t)) entries).
Proof.
  intros F. unfold parse_tickers.
  destruct entries as [|x l]; [reflexivity|].
  now rewrite (split_join ","%char (x :: l)).
Qed.

(** Entries without commas, joined by commas, parse to the entries
    stripped of white space, without those that are empty or blank. *)
Theorem parse_tickers_join (entries : list string) :
  Forall (fun t => Str.has ","%char t = false) entries ->
  parse_tickers (Str.join "," entries) =
  map Str.strip (filter (fun t => Str.truthy (Str.strip t)) entries).
Proof. exact (parse_joined entries). Qed.

Lemma parse_tickers_join_sample :
  parse_tickers " AAPL , MSFT ,,   ,GOOG" = ["AAPL"; "MSFT"; "GOOG"].
Proof.
  change " AAPL , MSFT ,,   ,GOOG"
    with (Str.join "," [" AAPL "; " MSFT "; ""; "   "; "GOOG"]).
  rewrite parse_tickers_join; [reflexivity|].
  repeat constructor.
Defined.

(** Tickers that are not empty, have no white space at either end and
    hold no comma are read back from their comma-separated list. *)
Theorem parse_tickers_round_trip (tickers : list string) :
  Forall (fun t => t <> "" /\ Str.strip t = t /\ Str.has ","%char t = false)
    tickers ->
  parse_tickers (Str.join "," tickers) = tickers.
Proof.
  intros F. rewrite parse_joined.
  - induction F as [|t l (N & S & _) F IH]; [reflexivity|].
    cbn [filter]. rewrite S.
    destruct t as [|c t]; [congruence|].
    cbn [Str.truthy map]. now rewrite S, IH.
  - eapply Forall_impl; [|exact F]. intros t (_ & _ & H). exact H.
Qed.

Lemma parse_tickers_round_trip_sample :
  parse_tickers "BRK.B,AAPL,X" = ["BRK.B"; "AAPL"; "X"].
Proof.
  apply (parse_tickers_round_trip ["BRK.B"; "AAPL"; "X"]).
  repeat constructor; discriminate.
Defined.

(** ** [main] *)

Lemma print_results_spec (rs : list ScoreResult) (out : list string) :
  print_results rs out = ((out ++ map report_line rs)%list, Return tt).
Proof.
  revert out; induction rs as [|r rs IH]; intros out; cbn [print_results map].
  - unfold io_lift. now rewrite app_nil_r.
  - unfold io_bind, print. rewrite IH, <- app_assoc. reflexivity.
Qed.

Lemma main_spec (api : Api) (a d : string) (out : list string) :
  main api a d out =
  match screen_stocks api (parse_tickers a) d with
  | Return rs =>
      ((out ++ header d :: map report_line rs)%list, Return tt)
  | Raise e => (out, Raise e)
  end.
Proof.
  unfold main, io_bind, io_lift, print.
  destruct (screen_stocks api (parse_tickers a) d) as [rs|e]; [|reflexivity].
  rewrite print_results_spec, <- app_assoc. reflexivity.
Qed.

(** When every ticker of the command line is scored without an
    exception, [main] prints the header and then one line per result, in
    the order of the ranking, and ends normally. *)
Theorem main_report
    (api : Api) (a d : string) (out : list string)
    (outcomes : list (option ScoreResult)) :
  Forall2 (fun t o => score_stock api t d = Return o)
    (parse_tickers a) outcomes ->
  main api a d out =
  ((out ++ header d
           :: map report_line (sort_reverse score (somes outcomes)))%list,
   Return tt).
Proof.
  intros S. rewrite main_spec.
  now rewrite (screen_stocks_returns api d _ outcomes S).
Qed.

Lemma main_report_sample :
  main Sample.api " A, EMPTY ,,B" Sample.today [] =
  (["Value Screen Results as of 2024-01-01:";
    "     B: Score 3, MOS N/A - P/E 9.0 < 15; P/B 1.0 < 1.5; Current ratio 3.00 > 1.5";
    "     A: Score 1, MOS N/A - P/E 12.0 < 15"],
   Return tt).
Proof.
  rewrite (main_report Sample.api " A, EMPTY ,,B" Sample.today []
             [Some (Rules.result Rules.order "A"
                      (Sample.metrics (Some 12%float) None None None None None)
                      None);
              None;
              Some (Rules.result Rules.order "B" Sample.three None)]).
  - vm_compute. reflexivity.
  - repeat constructor; vm_compute; reflexivity.
Defined.

(** When [main] ends with an exception, it has printed nothing, not even
    the header, and the exception is the one raised by the scoring of
    one of the tickers of the command line. *)
Theorem main_abort
    (api : Api) (a d : string) (out out' : list string) (e : exn) :
  main api a d out = (out', Raise e) ->
  out' = out /\
  exists t, In t (parse_tickers a) /\ score_stock api t d = Raise e.
Proof.
  rewrite main_spec.
  destruct (screen_stocks api (parse_tickers a) d) as [rs|e'] eqn:H;
    [discriminate|].
  intros E. injection E as <- <-. split; [reflexivity|].
  assert (C : collect api d (parse_tickers a) [] = Raise e').
  { unfold screen_stocks in H.
    destruct (collect api d (parse_tickers a) []); [discriminate|exact H]. }
  apply collect_raises_iff in C.
  destruct C as (l1 & t & l2 & os & E & _ & R).
  exists t. split; [|exact R]. rewrite E. apply in_elt.
Qed.

Lemma main_abort_sample :
  exists t,
    In t (parse_tickers "GOOD, LOSS") /\
    score_stock Sample.api t Sample.today
    = Raise (ValueError "math domain error").
Proof.
  apply (main_abort Sample.api "GOOD, LOSS" Sample.today [] []).
  vm_compute. reflexivity.
Defined.

(** A run that ends normally prints the header and at most one line per
    ticker of the command line. *)
Theorem main_line_count
    (api : Api) (a d : string) (out' : list string) :
  main api a d [] = (out', Return tt) ->
  (1 <= List.length out' <= 1 + List.length (parse_tickers a))%nat /\
  hd_error out' = Some (header d).
Proof.
  rewrite main_spec.
  destruct (screen_stocks api (parse_tickers a) d) as [rs|e'] eqn:H;
    [|discriminate].
  intros E. injection E as <-.
  pose proof (screen_stocks_length api d _ rs H) as L.
  cbn [app List.length hd_error]. rewrite length_map.
  split; [lia|reflexivity].
Qed.

Lemma main_line_count_sample :
  exists out',
    main Sample.api "A,EMPTY,B" Sample.today [] = (out', Return tt) /\
    (1 <= List.length out' <= 4)%nat.
Proof.
  eexists. split; [vm_compute; reflexivity|].
  apply (main_line_count Sample.api "A,EMPTY,B" Sample.today).
  vm_compute. reflexivity.
Defined.
